(** * Audio/video synchronisation controller (video/vie_sync_module.cc)

    A shallow embedding of [UpdateMeasurements] and of the member functions
    of [ViESyncModule] ([ConfigureSync], [TimeUntilNextProcess], [Process]),
    followed by the properties of the controller.

    The controller talks to objects it only holds pointers to: the video
    coding module, the voice engine's sync interface, RTP receivers and
    RTP/RTCP modules, and the [StreamSynchronization] helper.  None of them
    is defined in this translation unit, so what they answer is an input of
    the model (a [World]), and what the controller asks of them is recorded
    as a list of [Event]s. *)

From Stdlib Require Import ZArith List Bool String Lia.
Import ListNotations.
Open Scope Z_scope.

(** ** Machine integers *)

(** A [bits]-wide two's complement value, as the signed number it denotes. *)
Definition wrap (bits z : Z) : Z :=
  (z + 2 ^ (bits - 1)) mod 2 ^ bits - 2 ^ (bits - 1).

Definition INT_MIN : Z := - 2 ^ 31.
Definition INT_MAX : Z := 2 ^ 31 - 1.
Definition INT64_MIN : Z := - 2 ^ 63.
Definition INT64_MAX : Z := 2 ^ 63 - 1.

(** [int + int] and [int64_t - int64_t].  Where the mathematical result is
    representable they return it; outside that range (undefined behaviour in
    C++) the model takes the wrapped value the hardware produces. *)
Definition int_add (a b : Z) : Z := wrap 32 (a + b).
Definition int64_sub (a b : Z) : Z := wrap 64 (a - b).

(** ** Pointers *)

(** An object is known by its address; [None] is [NULL]. *)
Definition handle := N.
Definition ptr := option handle.

Definition is_set {A : Type} (p : option A) : bool :=
  match p with Some _ => true | None => false end.

Definition ptr_eqb (p q : ptr) : bool :=
  match p, q with
  | None, None => true
  | Some a, Some b => N.eqb a b
  | _, _ => false
  end.

(** ** Data model *)

(** Modelled from the spec: [RtcpMeasurement] and [RtcpList], the type of a
    stream's correlation list, are declared outside this translation unit.
    A sample is the spec's CorrelationSample, holding the three values
    [UpdateMeasurements] hands to [UpdateRtcpList]. *)
Record RtcpMeasurement := {
  ntp_secs : Z;
  ntp_frac : Z;
  rtp_timestamp : Z
}.

Definition RtcpList := list RtcpMeasurement.

(** [StreamSynchronization::Measurements], with the three fields
    [UpdateMeasurements] writes. *)
Record Measurements := {
  rtcp : RtcpList;
  latest_receive_time_ms : Z;
  latest_timestamp : Z
}.

Definition set_rtcp (l : RtcpList) (m : Measurements) : Measurements :=
  {| rtcp := l;
     latest_receive_time_ms := latest_receive_time_ms m;
     latest_timestamp := latest_timestamp m |}.

Definition set_latest_receive_time_ms (t : Z) (m : Measurements) : Measurements :=
  {| rtcp := rtcp m;
     latest_receive_time_ms := t;
     latest_timestamp := latest_timestamp m |}.

Definition set_latest_timestamp (t : Z) (m : Measurements) : Measurements :=
  {| rtcp := rtcp m;
     latest_receive_time_ms := latest_receive_time_ms m;
     latest_timestamp := t |}.

(** A default-constructed [Measurements]. *)
Definition Measurements_new : Measurements :=
  {| rtcp := []; latest_receive_time_ms := 0; latest_timestamp := 0 |}.

(** A member function call received by a [StreamSynchronization]. *)
Inductive SyncCall :=
| ComputeRelativeDelayCall (audio_measurement video_measurement : Measurements)
| ComputeDelaysCall (relative_delay_ms current_audio_delay_ms
                     target_audio_delay_ms target_video_delay_ms : Z).

(** Modelled from the spec: [StreamSynchronization], the class of the
    instance behind [sync_], is defined outside this translation unit.  An
    instance is the two constructor arguments together with the calls it
    has received since it was constructed: whatever synchronisation state
    the class accumulates is a function of these. *)
Record StreamSynchronization := {
  video_primary_ssrc : Z;
  audio_channel_id : Z;
  received : list SyncCall
}.

(** [new StreamSynchronization(video_primary_ssrc, audio_channel_id)] *)
Definition StreamSynchronization_new (ssrc channel : Z) : StreamSynchronization :=
  {| video_primary_ssrc := ssrc; audio_channel_id := channel; received := [] |}.

Definition receive (c : SyncCall) (y : StreamSynchronization) : StreamSynchronization :=
  {| video_primary_ssrc := video_primary_ssrc y;
     audio_channel_id := audio_channel_id y;
     received := received y ++ [c] |}.

(** A [TickTime], as its tick count. *)
Definition TickTime := Z.

(** The data members of [ViESyncModule]. *)
Record ViESyncModule := {
  vcm_ : ptr;
  video_receiver_ : ptr;
  video_rtp_rtcp_ : ptr;
  voe_channel_id_ : Z;
  voe_sync_interface_ : ptr;
  last_sync_time_ : TickTime;
  sync_ : option StreamSynchronization;
  audio_measurement_ : Measurements;
  video_measurement_ : Measurements
}.

Definition set_video_receiver_ (p : ptr) (s : ViESyncModule) : ViESyncModule :=
  {| vcm_ := vcm_ s; video_receiver_ := p; video_rtp_rtcp_ := video_rtp_rtcp_ s;
     voe_channel_id_ := voe_channel_id_ s;
     voe_sync_interface_ := voe_sync_interface_ s;
     last_sync_time_ := last_sync_time_ s; sync_ := sync_ s;
     audio_measurement_ := audio_measurement_ s;
     video_measurement_ := video_measurement_ s |}.

Definition set_video_rtp_rtcp_ (p : ptr) (s : ViESyncModule) : ViESyncModule :=
  {| vcm_ := vcm_ s; video_receiver_ := video_receiver_ s; video_rtp_rtcp_ := p;
     voe_channel_id_ := voe_channel_id_ s;
     voe_sync_interface_ := voe_sync_interface_ s;
     last_sync_time_ := last_sync_time_ s; sync_ := sync_ s;
     audio_measurement_ := audio_measurement_ s;
     video_measurement_ := video_measurement_ s |}.

Definition set_voe_channel_id_ (c : Z) (s : ViESyncModule) : ViESyncModule :=
  {| vcm_ := vcm_ s; video_receiver_ := video_receiver_ s;
     video_rtp_rtcp_ := video_rtp_rtcp_ s;
     voe_channel_id_ := c;
     voe_sync_interface_ := voe_sync_interface_ s;
     last_sync_time_ := last_sync_time_ s; sync_ := sync_ s;
     audio_measurement_ := audio_measurement_ s;
     video_measurement_ := video_measurement_ s |}.

Definition set_voe_sync_interface_ (p : ptr) (s : ViESyncModule) : ViESyncModule :=
  {| vcm_ := vcm_ s; video_receiver_ := video_receiver_ s;
     video_rtp_rtcp_ := video_rtp_rtcp_ s;
     voe_channel_id_ := voe_channel_id_ s;
     voe_sync_interface_ := p;
     last_sync_time_ := last_sync_time_ s; sync_ := sync_ s;
     audio_measurement_ := audio_measurement_ s;
     video_measurement_ := video_measurement_ s |}.

Definition set_last_sync_time_ (t : TickTime) (s : ViESyncModule) : ViESyncModule :=
  {| vcm_ := vcm_ s; video_receiver_ := video_receiver_ s;
     video_rtp_rtcp_ := video_rtp_rtcp_ s;
     voe_channel_id_ := voe_channel_id_ s;
     voe_sync_interface_ := voe_sync_interface_ s;
     last_sync_time_ := t; sync_ := sync_ s;
     audio_measurement_ := audio_measurement_ s;
     video_measurement_ := video_measurement_ s |}.

Definition set_sync_ (y : option StreamSynchronization) (s : ViESyncModule)
  : ViESyncModule :=
  {| vcm_ := vcm_ s; video_receiver_ := video_receiver_ s;
     video_rtp_rtcp_ := video_rtp_rtcp_ s;
     voe_channel_id_ := voe_channel_id_ s;
     voe_sync_interface_ := voe_sync_interface_ s;
     last_sync_time_ := last_sync_time_ s; sync_ := y;
     audio_measurement_ := audio_measurement_ s;
     video_measurement_ := video_measurement_ s |}.

Definition set_audio_measurement_ (m : Measurements) (s : ViESyncModule)
  : ViESyncModule :=
  {| vcm_ := vcm_ s; video_receiver_ := video_receiver_ s;
     video_rtp_rtcp_ := video_rtp_rtcp_ s;
     voe_channel_id_ := voe_channel_id_ s;
     voe_sync_interface_ := voe_sync_interface_ s;
     last_sync_time_ := last_sync_time_ s; sync_ := sync_ s;
     audio_measurement_ := m;
     video_measurement_ := video_measurement_ s |}.

Definition set_video_measurement_ (m : Measurements) (s : ViESyncModule)
  : ViESyncModule :=
  {| vcm_ := vcm_ s; video_receiver_ := video_receiver_ s;
     video_rtp_rtcp_ := video_rtp_rtcp_ s;
     voe_channel_id_ := voe_channel_id_ s;
     voe_sync_interface_ := voe_sync_interface_ s;
     last_sync_time_ := last_sync_time_ s; sync_ := sync_ s;
     audio_measurement_ := audio_measurement_ s;
     video_measurement_ := m |}.

(** [ViESyncModule::ViESyncModule(vcm)], constructed at tick [now]. *)
Definition ViESyncModule_new (vcm : ptr) (now : TickTime) : ViESyncModule :=
  {| vcm_ := vcm;
     video_receiver_ := None;
     video_rtp_rtcp_ := None;
     voe_channel_id_ := -1;
     voe_sync_interface_ := None;
     last_sync_time_ := now;
     sync_ := None;
     audio_measurement_ := Measurements_new;
     video_measurement_ := Measurements_new |}.

(** The two states of the controller: [Process] tests [voe_channel_id_ == -1]. *)
Inductive ControllerState := Disabled | Active.

Definition controller_state (s : ViESyncModule) : ControllerState :=
  if voe_channel_id_ s =? -1 then Disabled else Active.

(** ** The collaborators *)

(** What the collaborators answer during one call into the controller.
    A getter with out-parameters returns its status together with the
    values the out-parameters hold afterwards (they start at 0 or NULL in
    the callers below); a receiver getter that writes straight into the
    caller's record returns [Some v] when it stores [v] and reports success,
    [None] when it reports failure and stores nothing. *)
Record World := {
  (* VideoCodingModule *)
  Delay : handle -> Z;
  (* VoEVideoSync *)
  GetDelayEstimate : handle -> Z -> Z * Z * Z;
  GetRtpRtcp : handle -> Z -> Z * ptr * ptr;
  SetMinimumPlayoutDelay : handle -> Z -> Z -> Z;
  (* RtpReceiver *)
  Timestamp : handle -> option Z;
  LastReceivedTimeMs : handle -> option Z;
  (* RtpRtcp *)
  RemoteNTP : handle -> Z * Z * Z * Z;
  SSRC : handle -> Z;
  (* UpdateRtcpList(ntp_secs, ntp_frac, rtp_timestamp, &list, &new_rtcp_sr):
     the result and the list as the call leaves it *)
  UpdateRtcpList : Z -> Z -> Z -> RtcpList -> bool * RtcpList;
  (* StreamSynchronization *)
  ComputeRelativeDelay :
    StreamSynchronization -> Measurements -> Measurements -> bool * Z;
  ComputeDelays :
    StreamSynchronization -> Z -> Z -> Z -> Z -> bool * Z * Z
}.

(** What a call into the controller asks of its collaborators, in order. *)
Inductive Event :=
| VoE_SetMinimumPlayoutDelay (voe : handle) (channel delay_ms : Z)
| VCM_SetMinimumPlayoutDelay (vcm : handle) (delay_ms : Z)
| Sync (c : SyncCall)
| TraceCounter (name : string) (value : Z)
| LogError (msg : string).

Definition is_setter (e : Event) : bool :=
  match e with
  | VoE_SetMinimumPlayoutDelay _ _ _ | VCM_SetMinimumPlayoutDelay _ _ => true
  | _ => false
  end.

(** What is fixed when the translation unit is compiled: whether [assert]
    and [RTC_DCHECK] are compiled in, and [TickInterval::Milliseconds], the
    conversion of a tick difference to milliseconds. *)
Record Build := {
  NDEBUG : bool;
  RTC_DCHECK_IS_ON : bool;
  Milliseconds : Z -> Z
}.

(** ** Member functions as state transformers *)

Inductive fault := NullDereference | AssertionFailed | DcheckFailed.

(** How a statement ends: control goes on, the function returns, or the
    process dies. *)
Inductive flow (A : Type) : Type :=
| Next (a : A)
| Returned
| Crashed (f : fault).

Arguments Next {A} a.
Arguments Returned {A}.
Arguments Crashed {A} f.

Definition M (A : Type) : Type :=
  ViESyncModule -> flow A * ViESyncModule * list Event.

Definition ret {A : Type} (a : A) : M A := fun s => (Next a, s, []).

Definition bind {A B : Type} (m : M A) (k : A -> M B) : M B := fun s =>
  match m s with
  | (Next a, s1, t1) => let '(r, s2, t2) := k a s1 in (r, s2, t1 ++ t2)
  | (Returned, s1, t1) => (Returned, s1, t1)
  | (Crashed f, s1, t1) => (Crashed f, s1, t1)
  end.

Notation "x <- m ;; k" := (bind m (fun x => k))
  (at level 61, m at next level, right associativity).
Notation "m ;; k" := (bind m (fun _ => k))
  (at level 61, right associativity).

Definition get : M ViESyncModule := fun s => (Next s, s, []).
Definition modify (f : ViESyncModule -> ViESyncModule) : M unit :=
  fun s => (Next tt, f s, []).
Definition emit (e : Event) : M unit := fun s => (Next tt, s, [e]).
Definition return_ : M unit := fun s => (Returned, s, []).
Definition when (c : bool) (m : M unit) : M unit :=
  fun s => if c then m s else (Next tt, s, []).

(** [p->] and [*p] *)
Definition deref {A : Type} (p : option A) : M A := fun s =>
  match p with
  | Some a => (Next a, s, [])
  | None => (Crashed NullDereference, s, [])
  end.

(** A call on [sync_]: the instance receives it, and it is recorded. *)
Definition sync_call (c : SyncCall) : M unit :=
  modify (fun s =>
    set_sync_ match sync_ s with
              | Some y => Some (receive c y)
              | None => None
              end s) ;;
  emit (Sync c).

(** How a call of a member function ends. *)
Inductive completion := Completed | Faulted (f : fault).

Definition call (m : M unit) (s : ViESyncModule)
  : completion * ViESyncModule * list Event :=
  match m s with
  | (Next _, s', t) => (Completed, s', t)
  | (Returned, s', t) => (Completed, s', t)
  | (Crashed f, s', t) => (Faulted f, s', t)
  end.

(** How a call of a function that returns a value ends: with the value, or
    with the process dead. *)
Inductive outcome (A : Type) : Type :=
| Value (a : A)
| Fault (f : fault).

Arguments Value {A} a.
Arguments Fault {A} f.

(** [int UpdateMeasurements(Measurements* stream, const RtpRtcp& rtp_rtcp,
    const RtpReceiver& receiver)]: how the call ends and [*stream] as it
    leaves it.  The callers make the two references from pointers, so a
    reference may be null here: it is followed where the function first
    calls through it, [receiver] at [Timestamp] and [rtp_rtcp] at
    [RemoteNTP], after the receiver has been asked. *)
Definition UpdateMeasurements (w : World) (stream : Measurements)
    (rtp_rtcp receiver : ptr) : outcome Z * Measurements :=
  match receiver with
  | None => (Fault NullDereference, stream)
  | Some receiver =>
    match Timestamp w receiver with
    | None => (Value (-1), stream)
    | Some ts =>
      let stream := set_latest_timestamp ts stream in
      match LastReceivedTimeMs w receiver with
      | None => (Value (-1), stream)
      | Some t =>
        let stream := set_latest_receive_time_ms t stream in
        match rtp_rtcp with
        | None => (Fault NullDereference, stream)
        | Some rtp_rtcp =>
          let '(status, ntp_secs, ntp_frac, rtp_timestamp) :=
            RemoteNTP w rtp_rtcp in
          if negb (0 =? status) then (Value (-1), stream)
          else
            let '(ok, l) :=
              UpdateRtcpList w ntp_secs ntp_frac rtp_timestamp (rtcp stream) in
            let stream := set_rtcp l stream in
            if negb ok then (Value (-1), stream) else (Value 0, stream)
        end
      end
    end
  end.

(** A call that writes through a pointer to a member of the controller:
    whatever way it ends, the member holds the record as the call left it. *)
Definition writing (set : Measurements -> ViESyncModule -> ViESyncModule)
    (c : outcome Z * Measurements) : M Z := fun s =>
  match c with
  | (Value r, m) => (Next r, set m s, [])
  | (Fault f, m) => (Crashed f, set m s, [])
  end.

Arguments int_add : simpl never.
Arguments int64_sub : simpl never.
Arguments UpdateMeasurements : simpl never.

Section Controller.

Variable build : Build.

Definition assert_ (c : bool) : M unit := fun s =>
  if c || NDEBUG build then (Next tt, s, []) else (Crashed AssertionFailed, s, []).

Definition RTC_DCHECK (c : bool) : M unit := fun s =>
  if c || negb (RTC_DCHECK_IS_ON build)
  then (Next tt, s, []) else (Crashed DcheckFailed, s, []).

(** [void ViESyncModule::ConfigureSync(...)] *)
Definition ConfigureSync (w : World) (voe_channel_id : Z)
    (voe_sync_interface video_rtcp_module video_receiver : ptr) : M unit :=
  when (negb (voe_channel_id =? -1)) (RTC_DCHECK (is_set voe_sync_interface)) ;;
  s <- get ;;
  (* Prevent expensive no-ops. *)
  when ((voe_channel_id_ s =? voe_channel_id) &&
        ptr_eqb (voe_sync_interface_ s) voe_sync_interface &&
        ptr_eqb (video_receiver_ s) video_receiver &&
        ptr_eqb (video_rtp_rtcp_ s) video_rtcp_module) return_ ;;
  modify (set_voe_channel_id_ voe_channel_id) ;;
  modify (set_voe_sync_interface_ voe_sync_interface) ;;
  modify (set_video_receiver_ video_receiver) ;;
  modify (set_video_rtp_rtcp_ video_rtcp_module) ;;
  s <- get ;;
  video_rtp_rtcp <- deref (video_rtp_rtcp_ s) ;;
  modify (set_sync_
    (Some (StreamSynchronization_new (SSRC w video_rtp_rtcp) voe_channel_id))).

(** [int64_t ViESyncModule::TimeUntilNextProcess()], called at tick [now]. *)
Definition TimeUntilNextProcess (now : TickTime) (s : ViESyncModule) : Z :=
  let kSyncIntervalMs := 1000 in
  int64_sub kSyncIntervalMs
    (Milliseconds build (int64_sub now (last_sync_time_ s))).

(** [void ViESyncModule::Process()], called at tick [now]. *)
Definition Process (w : World) (now : TickTime) : M unit :=
  modify (set_last_sync_time_ now) ;;
  s <- get ;;
  vcm <- deref (vcm_ s) ;;
  let current_video_delay_ms := Delay w vcm in
  when (voe_channel_id_ s =? -1) return_ ;;
  assert_ (is_set (video_rtp_rtcp_ s) && is_set (voe_sync_interface_ s)) ;;
  assert_ (is_set (sync_ s)) ;;
  voe <- deref (voe_sync_interface_ s) ;;
  let '(status, audio_jitter_buffer_delay_ms, playout_buffer_delay_ms) :=
    GetDelayEstimate w voe (voe_channel_id_ s) in
  when (negb (status =? 0)) return_ ;;
  let current_audio_delay_ms :=
    int_add audio_jitter_buffer_delay_ms playout_buffer_delay_ms in
  let '(status, voice_rtp_rtcp, voice_receiver) :=
    GetRtpRtcp w voe (voe_channel_id_ s) in
  when (negb (0 =? status)) return_ ;;
  assert_ (is_set voice_rtp_rtcp) ;;
  assert_ (is_set voice_receiver) ;;
  r <- writing set_video_measurement_
         (UpdateMeasurements w (video_measurement_ s)
            (video_rtp_rtcp_ s) (video_receiver_ s)) ;;
  when (negb (r =? 0)) return_ ;;
  r <- writing set_audio_measurement_
         (UpdateMeasurements w (audio_measurement_ s)
            voice_rtp_rtcp voice_receiver) ;;
  when (negb (r =? 0)) return_ ;;
  s <- get ;;
  sync <- deref (sync_ s) ;;
  (* Calculate how much later or earlier the audio stream is compared to video. *)
  sync_call (ComputeRelativeDelayCall (audio_measurement_ s) (video_measurement_ s)) ;;
  let '(ok, relative_delay_ms) :=
    ComputeRelativeDelay w sync (audio_measurement_ s) (video_measurement_ s) in
  when (negb ok) return_ ;;
  emit (TraceCounter "SyncCurrentVideoDelay" current_video_delay_ms) ;;
  emit (TraceCounter "SyncCurrentAudioDelay" current_audio_delay_ms) ;;
  emit (TraceCounter "SyncRelativeDelay" relative_delay_ms) ;;
  let target_audio_delay_ms := 0 in
  let target_video_delay_ms := current_video_delay_ms in
  (* Calculate the necessary extra audio delay and desired total video
     delay to get the streams in sync. *)
  s <- get ;;
  sync <- deref (sync_ s) ;;
  sync_call (ComputeDelaysCall relative_delay_ms current_audio_delay_ms
               target_audio_delay_ms target_video_delay_ms) ;;
  let '(ok, target_audio_delay_ms, target_video_delay_ms) :=
    ComputeDelays w sync relative_delay_ms current_audio_delay_ms
      target_audio_delay_ms target_video_delay_ms in
  when (negb ok) return_ ;;
  emit (VoE_SetMinimumPlayoutDelay voe (voe_channel_id_ s) target_audio_delay_ms) ;;
  when (SetMinimumPlayoutDelay w voe (voe_channel_id_ s) target_audio_delay_ms =? -1)
       (emit (LogError "Error setting voice delay.")) ;;
  emit (VCM_SetMinimumPlayoutDelay vcm target_video_delay_ms).

End Controller.

(** Whether a [ConfigureSync] call gets past its [RTC_DCHECK]. *)
Definition dcheck_passes (build : Build) (voe_channel_id : Z)
    (voe_sync_interface : ptr) : bool :=
  (voe_channel_id =? -1) || is_set voe_sync_interface ||
  negb (RTC_DCHECK_IS_ON build).

(** The four comparisons of the no-op test of [ConfigureSync] hold exactly
    when the arguments are the stored configuration. *)
Definition same_configuration (s : ViESyncModule) (voe_channel_id : Z)
    (voe_sync_interface video_rtcp_module video_receiver : ptr) : Prop :=
  voe_channel_id_ s = voe_channel_id /\
  voe_sync_interface_ s = voe_sync_interface /\
  video_receiver_ s = video_receiver /\
  video_rtp_rtcp_ s = video_rtcp_module.

(** The controller is bound to a voice channel, every pointer [Process]
    follows is set, and [sync_] holds [sync]. *)
Record Bound (s : ViESyncModule) (vcm voe video_rtp_rtcp video_receiver : handle)
    (sync : StreamSynchronization) : Prop := {
  bound_channel : voe_channel_id_ s <> -1;
  bound_vcm : vcm_ s = Some vcm;
  bound_voe : voe_sync_interface_ s = Some voe;
  bound_video_rtp_rtcp : video_rtp_rtcp_ s = Some video_rtp_rtcp;
  bound_video_receiver : video_receiver_ s = Some video_receiver;
  bound_sync : sync_ s = Some sync
}.

(** Both queries of the voice engine and both measurement updates of a
    cycle succeed: the voice engine reports the jitter buffer and playout
    buffer delays [jitter] and [playout], and the updates leave the
    measurements [audio] and [video]. *)
Inductive Measures (w : World) (s : ViESyncModule)
    (voe video_rtp_rtcp video_receiver : handle)
  : Z -> Z -> Measurements -> Measurements -> Prop :=
| measures jitter playout voice_rtp_rtcp voice_receiver audio video :
    GetDelayEstimate w voe (voe_channel_id_ s) = (0, jitter, playout) ->
    GetRtpRtcp w voe (voe_channel_id_ s)
      = (0, Some voice_rtp_rtcp, Some voice_receiver) ->
    UpdateMeasurements w (video_measurement_ s)
      (Some video_rtp_rtcp) (Some video_receiver) = (Value 0, video) ->
    UpdateMeasurements w (audio_measurement_ s)
      (Some voice_rtp_rtcp) (Some voice_receiver) = (Value 0, audio) ->
    Measures w s voe video_rtp_rtcp video_receiver jitter playout audio video.

(** Some stage of a cycle fails, the stages before it having succeeded. *)
Inductive StageFails (w : World) (s : ViESyncModule)
    (vcm voe video_rtp_rtcp video_receiver : handle)
    (sync : StreamSynchronization) : Prop :=
| delay_estimate_fails status jitter playout :
    GetDelayEstimate w voe (voe_channel_id_ s) = (status, jitter, playout) ->
    status <> 0 ->
    StageFails w s vcm voe video_rtp_rtcp video_receiver sync
| rtp_rtcp_query_fails jitter playout status voice_rtp_rtcp voice_receiver :
    GetDelayEstimate w voe (voe_channel_id_ s) = (0, jitter, playout) ->
    GetRtpRtcp w voe (voe_channel_id_ s)
      = (status, voice_rtp_rtcp, voice_receiver) ->
    status <> 0 ->
    StageFails w s vcm voe video_rtp_rtcp video_receiver sync
| video_measurement_fails jitter playout voice_rtp_rtcp voice_receiver r video :
    GetDelayEstimate w voe (voe_channel_id_ s) = (0, jitter, playout) ->
    GetRtpRtcp w voe (voe_channel_id_ s)
      = (0, Some voice_rtp_rtcp, Some voice_receiver) ->
    UpdateMeasurements w (video_measurement_ s)
      (Some video_rtp_rtcp) (Some video_receiver) = (Value r, video) ->
    r <> 0 ->
    StageFails w s vcm voe video_rtp_rtcp video_receiver sync
| audio_measurement_fails jitter playout voice_rtp_rtcp voice_receiver
    video r audio :
    GetDelayEstimate w voe (voe_channel_id_ s) = (0, jitter, playout) ->
    GetRtpRtcp w voe (voe_channel_id_ s)
      = (0, Some voice_rtp_rtcp, Some voice_receiver) ->
    UpdateMeasurements w (video_measurement_ s)
      (Some video_rtp_rtcp) (Some video_receiver) = (Value 0, video) ->
    UpdateMeasurements w (audio_measurement_ s)
      (Some voice_rtp_rtcp) (Some voice_receiver) = (Value r, audio) ->
    r <> 0 ->
    StageFails w s vcm voe video_rtp_rtcp video_receiver sync
| relative_delay_fails jitter playout audio video relative_delay_ms :
    Measures w s voe video_rtp_rtcp video_receiver jitter playout audio video ->
    ComputeRelativeDelay w sync audio video = (false, relative_delay_ms) ->
    StageFails w s vcm voe video_rtp_rtcp video_receiver sync
| compute_delays_fails jitter playout audio video relative_delay_ms
    target_audio_delay_ms target_video_delay_ms :
    Measures w s voe video_rtp_rtcp video_receiver jitter playout audio video ->
    ComputeRelativeDelay w sync audio video = (true, relative_delay_ms) ->
    ComputeDelays w (receive (ComputeRelativeDelayCall audio video) sync)
      relative_delay_ms (int_add jitter playout) 0 (Delay w vcm)
      = (false, target_audio_delay_ms, target_video_delay_ms) ->
    StageFails w s vcm voe video_rtp_rtcp video_receiver sync.

(** Every stage of a cycle succeeds, [ComputeDelays] returning the targets
    [target_audio_delay_ms] and [target_video_delay_ms]. *)
Inductive Computes (w : World) (s : ViESyncModule)
    (vcm voe video_rtp_rtcp video_receiver : handle)
    (sync : StreamSynchronization)
  : Z -> Z -> Measurements -> Measurements -> Z -> Z -> Z -> Prop :=
| computes jitter playout audio video relative_delay_ms
    target_audio_delay_ms target_video_delay_ms :
    Measures w s voe video_rtp_rtcp video_receiver jitter playout audio video ->
    ComputeRelativeDelay w sync audio video = (true, relative_delay_ms) ->
    ComputeDelays w (receive (ComputeRelativeDelayCall audio video) sync)
      relative_delay_ms (int_add jitter playout) 0 (Delay w vcm)
      = (true, target_audio_delay_ms, target_video_delay_ms) ->
    Computes w s vcm voe video_rtp_rtcp video_receiver sync
      jitter playout audio video relative_delay_ms
      target_audio_delay_ms target_video_delay_ms.

(** A run of consecutive [Process] calls, each with what the collaborators
    answer during it and the tick it is made at; the run ends at the first
    call that does not return. *)
Fixpoint run_cycles (build : Build) (cycles : list (World * TickTime))
    (s : ViESyncModule) : completion * ViESyncModule * list Event :=
  match cycles with
  | [] => (Completed, s, [])
  | (w, now) :: rest =>
    match call (Process build w now) s with
    | (Completed, s1, t1) =>
      let '(r, s2, t2) := run_cycles build rest s1 in (r, s2, t1 ++ t2)
    | (Faulted f, s1, t1) => (Faulted f, s1, t1)
    end
  end.

(** The states a controller can be in: freshly constructed, or left by a
    call of [ConfigureSync] or [Process] that returned. *)
Inductive Reachable (build : Build) : ViESyncModule -> Prop :=
| reach_new vcm now :
    Reachable build (ViESyncModule_new vcm now)
| reach_ConfigureSync s w ch voe rtcp receiver s' t :
    Reachable build s ->
    call (ConfigureSync build w ch voe rtcp receiver) s = (Completed, s', t) ->
    Reachable build s'
| reach_Process s w now s' t :
    Reachable build s ->
    call (Process build w now) s = (Completed, s', t) ->
    Reachable build s'.

(** ** The delay distributor *)

Module DelayDistributor.

(** The configured constants of the distributor. *)
Record Config := {
  max_step_ms : Z;
  max_delay_ms : Z;
  hysteresis_ms : Z
}.

(** Raise a delay by [delta], not beyond the configured maximum and never
    below what it currently is. *)
Definition raise (cfg : Config) (current delta : Z) : Z :=
  Z.max current (Z.min (current + delta) (max_delay_ms cfg)).

(** Modelled from the spec: [StreamSynchronization::ComputeDelays] is
    defined in video/stream_synchronization.cc, which is not among the
    sources embedded here, and the spec leaves its constants to the
    configuration.  From the spec's contract
    [ComputeDelays(relative_delay_ms, current_audio_delay_ms,
    current_video_delay_ms) -> (target_audio_delay_ms, target_video_delay_ms)]:
    within the tolerance band around zero the current delays are returned
    unchanged; otherwise one stream's delay is raised towards the other by
    the measured skew, by at most the maximum step per call, the total
    clamped to the configured maximum, and no delay is lowered (the video
    delay passed in is the pipeline's floor).  A positive skew raises the
    audio delay, as in the spec's scenario, a negative one the video delay. *)
Definition ComputeDelays (cfg : Config)
    (relative_delay_ms current_audio_delay_ms current_video_delay_ms : Z)
  : Z * Z :=
  if Z.abs relative_delay_ms <=? hysteresis_ms cfg then
    (current_audio_delay_ms, current_video_delay_ms)
  else
    let step := Z.min (Z.abs relative_delay_ms) (max_step_ms cfg) in
    if 0 <? relative_delay_ms then
      (raise cfg current_audio_delay_ms step, current_video_delay_ms)
    else
      (current_audio_delay_ms, raise cfg current_video_delay_ms step).

(** The member function as [Process] calls it: the current video delay comes
    in through the video target, and the call reports success. *)
Definition as_member (cfg : Config) (_ : StreamSynchronization)
    (relative_delay_ms current_audio_delay_ms
     target_audio_delay_ms target_video_delay_ms : Z) : bool * Z * Z :=
  let '(a, v) := ComputeDelays cfg relative_delay_ms current_audio_delay_ms
                   target_video_delay_ms in
  (true, a, v).

End DelayDistributor.

(** ** A session used in the examples *)

Module Session.

Definition vcm : handle := 1%N.
Definition voe : handle := 2%N.
Definition video_rtp_rtcp : handle := 3%N.
Definition video_receiver : handle := 4%N.
Definition voice_rtp_rtcp : handle := 5%N.
Definition voice_receiver : handle := 6%N.
Definition channel : Z := 0.

(** A debug build whose ticks are milliseconds. *)
Definition build : Build :=
  {| NDEBUG := false; RTC_DCHECK_IS_ON := true; Milliseconds := fun ticks => ticks |}.

(** The spec's scenario: maximum step 30 ms, maximum delay 400 ms. *)
Definition distributor : DelayDistributor.Config :=
  {| DelayDistributor.max_step_ms := 30;
     DelayDistributor.max_delay_ms := 400;
     DelayDistributor.hysteresis_ms := 10 |}.

(** A correlation list that takes a sender report only when it is newer
    than the newest one it holds. *)
Definition newer_report (secs frac ts : Z) (l : RtcpList) : bool * RtcpList :=
  let sample := {| ntp_secs := secs; ntp_frac := frac; rtp_timestamp := ts |} in
  match l with
  | [] => (true, [sample])
  | newest :: _ =>
    if (ntp_secs newest <? secs) ||
       ((ntp_secs newest =? secs) && (ntp_frac newest <? frac))
    then (true, sample :: l) else (false, l)
  end.

(** Both streams flow, audio measured 100 ms behind video; the voice engine
    answers [voe_status] to [SetMinimumPlayoutDelay]. *)
Definition flowing (voe_status : Z) : World :=
  {| Delay := fun _ => 40;
     GetDelayEstimate := fun _ _ => (0, 15, 5);
     GetRtpRtcp := fun _ _ => (0, Some voice_rtp_rtcp, Some voice_receiver);
     SetMinimumPlayoutDelay := fun _ _ _ => voe_status;
     Timestamp := fun r => Some (if N.eqb r video_receiver then 90000 else 48000);
     LastReceivedTimeMs := fun _ => Some 7;
     RemoteNTP := fun m =>
       (0, 3900000000, 0, if N.eqb m video_rtp_rtcp then 45000 else 24000);
     SSRC := fun _ => 4660;
     UpdateRtcpList := newer_report;
     ComputeRelativeDelay := fun _ _ _ => (true, 100);
     ComputeDelays := DelayDistributor.as_member distributor |}.

(** Session start: packets arrive, no sender report has been seen yet. *)
Definition starting : World :=
  {| Delay := fun _ => 40;
     GetDelayEstimate := fun _ _ => (0, 15, 5);
     GetRtpRtcp := fun _ _ => (0, Some voice_rtp_rtcp, Some voice_receiver);
     SetMinimumPlayoutDelay := fun _ _ _ => 0;
     Timestamp := fun _ => Some 5;
     LastReceivedTimeMs := fun _ => Some 7;
     RemoteNTP := fun _ => (-1, 0, 0, 0);
     SSRC := fun _ => 4660;
     UpdateRtcpList := newer_report;
     ComputeRelativeDelay := fun _ _ _ => (false, 0);
     ComputeDelays := DelayDistributor.as_member distributor |}.

Definition fresh : ViESyncModule := ViESyncModule_new (Some vcm) 0.

(** The controller bound to the voice channel. *)
Definition bound : ViESyncModule :=
  {| vcm_ := Some vcm;
     video_receiver_ := Some video_receiver;
     video_rtp_rtcp_ := Some video_rtp_rtcp;
     voe_channel_id_ := channel;
     voe_sync_interface_ := Some voe;
     last_sync_time_ := 0;
     sync_ := Some (StreamSynchronization_new 4660 channel);
     audio_measurement_ := Measurements_new;
     video_measurement_ := Measurements_new |}.

(** The bound controller after [ConfigureSync(-1, NULL, video_rtp_rtcp,
    video_receiver)]. *)
Definition unbound : ViESyncModule :=
  set_sync_ (Some (StreamSynchronization_new 4660 (-1)))
    (set_voe_sync_interface_ None (set_voe_channel_id_ (-1) bound)).

(** The bound controller after one cycle in which both streams flow. *)
Definition synced : ViESyncModule :=
  snd (fst (call (Process build (flowing 0) 1000) bound)).

End Session.

(** A release build of the example session: neither [assert] nor
    [RTC_DCHECK] is compiled in. *)
Module Release.

Definition build : Build :=
  {| NDEBUG := true; RTC_DCHECK_IS_ON := false;
     Milliseconds := fun ticks => ticks |}.

End Release.

(** * Properties *)

(** ** Tactics and basic facts *)

Ltac unfold_M :=
  unfold call, bind, when, assert_, RTC_DCHECK, deref, writing, sync_call,
    modify, emit, get, return_, ret in *.

(** The term a computation is stuck on: the innermost scrutinee at its head. *)
Ltac stuck_on t :=
  lazymatch t with
  | match ?x with _ => _ end => stuck_on x
  | (match ?x with _ => _ end) _ => stuck_on x
  | orb ?x _ => stuck_on x
  | andb ?x _ => stuck_on x
  | negb ?x => stuck_on x
  | is_set ?x => stuck_on x
  | _ => t
  end.

(** Run the computation on the left of [H] one step further: with what is
    already known of the term it is stuck on, or else by cases on it. *)
Ltac step H :=
  lazymatch type of H with
  | ?lhs = _ =>
    lazymatch lhs with
    | match _ with _ => _ end =>
      let x := stuck_on lhs in
      lazymatch goal with
      | E : x = _ |- _ => rewrite E in H; simpl in H
      | _ => destruct x eqn:?; simpl in H
      end
    end
  end.


Ltac pair_eq :=
  repeat match goal with
  | H : (_, _) = (_, _) |- _ => inversion H; clear H; subst
  end.

Ltac run H := repeat step H; pair_eq.

Lemma ptr_eqb_eq (p q : ptr) : ptr_eqb p q = true <-> p = q.
Proof.
  destruct p as [a|], q as [b|]; simpl; split; intros H;
    try discriminate; try reflexivity.
  - apply N.eqb_eq in H. now subst.
  - inversion H. apply N.eqb_refl.
Qed.

Lemma ptr_eqb_refl (p : ptr) : ptr_eqb p p = true.
Proof. now apply ptr_eqb_eq. Qed.

Lemma int_add_exact (a b : Z) :
  INT_MIN <= a + b <= INT_MAX -> int_add a b = a + b.
Proof.
  unfold int_add, wrap, INT_MIN, INT_MAX. intros H.
  change (2 ^ (32 - 1)) with 2147483648 in *.
  change (2 ^ 31) with 2147483648 in *.
  change (2 ^ 32) with 4294967296.
  rewrite Z.mod_small by lia. lia.
Qed.

Lemma int64_sub_exact (a b : Z) :
  INT64_MIN <= a - b <= INT64_MAX -> int64_sub a b = a - b.
Proof.
  unfold int64_sub, wrap, INT64_MIN, INT64_MAX. intros H.
  change (2 ^ (64 - 1)) with 9223372036854775808 in *.
  change (2 ^ 63) with 9223372036854775808 in *.
  change (2 ^ 64) with 18446744073709551616.
  rewrite Z.mod_small by lia. lia.
Qed.

Lemma controller_state_Disabled (s : ViESyncModule) :
  controller_state s = Disabled <-> voe_channel_id_ s = -1.
Proof.
  unfold controller_state. destruct (voe_channel_id_ s =? -1) eqn:E.
  - apply Z.eqb_eq in E. tauto.
  - apply Z.eqb_neq in E. split; [discriminate | contradiction].
Qed.

Lemma controller_state_Active (s : ViESyncModule) :
  controller_state s = Active <-> voe_channel_id_ s <> -1.
Proof.
  unfold controller_state. destruct (voe_channel_id_ s =? -1) eqn:E.
  - apply Z.eqb_eq in E. split; [discriminate | contradiction].
  - apply Z.eqb_neq in E. tauto.
Qed.

(** ** ConfigureSync *)

Lemma no_op_test_spec s ch voe rtcp receiver :
  (voe_channel_id_ s =? ch) && ptr_eqb (voe_sync_interface_ s) voe &&
  ptr_eqb (video_receiver_ s) receiver && ptr_eqb (video_rtp_rtcp_ s) rtcp = true
  <-> same_configuration s ch voe rtcp receiver.
Proof.
  unfold same_configuration.
  rewrite !andb_true_iff, Z.eqb_eq, !ptr_eqb_eq. tauto.
Qed.

(** A call that returns leaves the channel and the sync interface it was
    given in effect, asks nothing observable of the collaborators, and got
    past its [RTC_DCHECK]. *)
Lemma ConfigureSync_Completed build w s ch voe rtcp receiver s' t :
  call (ConfigureSync build w ch voe rtcp receiver) s = (Completed, s', t) ->
  voe_channel_id_ s' = ch /\ voe_sync_interface_ s' = voe /\ t = [] /\
  (RTC_DCHECK_IS_ON build = true -> ch <> -1 -> is_set voe = true).
Proof.
  unfold ConfigureSync. unfold_M. intros H.
  destruct (ch =? -1) eqn:Ech; simpl in H;
    [ apply Z.eqb_eq in Ech
    | apply Z.eqb_neq in Ech;
      destruct (is_set voe) eqn:Ev; simpl in H;
      [ | destruct (RTC_DCHECK_IS_ON build) eqn:Ed; simpl in H;
          [ discriminate | ] ] ].
  all: destruct (_ && _) eqn:Eq in H; simpl in H;
    [ apply no_op_test_spec in Eq; destruct Eq as (? & ? & _);
      pair_eq; intuition congruence
    | destruct rtcp; simpl in H; pair_eq; try discriminate;
      simpl; intuition congruence ].
Qed.

(** ** Process in the Disabled state *)

Lemma Process_Disabled build w now s :
  voe_channel_id_ s = -1 ->
  call (Process build w now) s =
    (match vcm_ s with Some _ => Completed | None => Faulted NullDereference end,
     set_last_sync_time_ now s, []).
Proof.
  intros H. unfold Process. unfold_M. simpl.
  destruct (vcm_ s); simpl; [rewrite H; reflexivity | reflexivity].
Qed.

Lemma run_cycles_Disabled build cycles :
  forall s, voe_channel_id_ s = -1 ->
  exists r s', run_cycles build cycles s = (r, s', []) /\ voe_channel_id_ s' = -1.
Proof.
  induction cycles as [|[w now] rest IH]; intros s H; simpl.
  - eauto.
  - rewrite Process_Disabled by assumption.
    destruct (vcm_ s).
    + destruct (IH (set_last_sync_time_ now s) H) as (r & s' & E & H').
      rewrite E. eauto.
    + eauto.
Qed.

(** C1.  A [ConfigureSync] call with channel id -1 that returns leaves the
    controller Disabled, and in any run of [Process] calls made from there
    the controller stays Disabled and no setter of a collaborator is called
    (neither [SetMinimumPlayoutDelay]); a call with another channel id that
    returns leaves it Active. *)
Theorem ConfigureSync_sets_controller_state :
  forall build w s ch voe rtcp receiver s1 t1,
    call (ConfigureSync build w ch voe rtcp receiver) s = (Completed, s1, t1) ->
    (ch = -1 ->
       controller_state s1 = Disabled /\
       forall cycles, exists r s2 t,
         run_cycles build cycles s1 = (r, s2, t) /\
         controller_state s2 = Disabled /\
         Forall (fun e => is_setter e = false) t) /\
    (ch <> -1 -> controller_state s1 = Active).
Proof.
  intros build w s ch voe rtcp receiver s1 t1 H.
  apply ConfigureSync_Completed in H. destruct H as (Hch & _).
  split; intros E.
  - assert (D : voe_channel_id_ s1 = -1) by congruence.
    split; [now apply controller_state_Disabled|].
    intros cycles.
    destruct (run_cycles_Disabled build cycles s1 D) as (r & s2 & R & D2).
    exists r, s2, []. repeat split; auto.
    now apply controller_state_Disabled.
  - apply controller_state_Active. congruence.
Qed.

(** The witness: the bound controller of the example session is disabled,
    and the fresh controller is bound. *)
Lemma ConfigureSync_sets_controller_state_witness :
  (call (ConfigureSync Session.build Session.starting (-1) None
           (Some Session.video_rtp_rtcp) (Some Session.video_receiver))
        Session.bound = (Completed, Session.unbound, []) /\
   controller_state Session.unbound = Disabled /\
   forall cycles, exists r s2 t,
     run_cycles Session.build cycles Session.unbound = (r, s2, t) /\
     controller_state s2 = Disabled /\
     Forall (fun e => is_setter e = false) t) /\
  (call (ConfigureSync Session.build Session.starting Session.channel
           (Some Session.voe) (Some Session.video_rtp_rtcp)
           (Some Session.video_receiver))
        Session.fresh = (Completed, Session.bound, []) /\
   controller_state Session.bound = Active).
Proof.
  split; (split; [reflexivity|]).
  - apply (ConfigureSync_sets_controller_state Session.build Session.starting
             Session.bound (-1) None (Some Session.video_rtp_rtcp)
             (Some Session.video_receiver) Session.unbound []);
      reflexivity.
  - apply (ConfigureSync_sets_controller_state Session.build Session.starting
             Session.fresh Session.channel (Some Session.voe)
             (Some Session.video_rtp_rtcp) (Some Session.video_receiver)
             Session.bound []).
    + reflexivity.
    + discriminate.
Defined.

(** ** What Process leaves alone *)

(** [Process] never touches the configuration, whatever way it ends. *)
Lemma Process_keeps_configuration build w now s r s' t :
  call (Process build w now) s = (r, s', t) ->
  vcm_ s' = vcm_ s /\
  same_configuration s' (voe_channel_id_ s) (voe_sync_interface_ s)
    (video_rtp_rtcp_ s) (video_receiver_ s) /\
  is_set (sync_ s') = is_set (sync_ s).
Proof.
  unfold Process, same_configuration. unfold_M. simpl. intros H.
  run H; simpl;
    repeat match goal with
    | E : sync_ _ = _ |- _ => rewrite E
    end; simpl; auto 10.
Qed.

(** ** Reachable states *)

(** Where [RTC_DCHECK] is compiled in, a bound controller has a sync
    interface. *)
Lemma Reachable_sync_interface build s :
  Reachable build s ->
  RTC_DCHECK_IS_ON build = true -> voe_channel_id_ s <> -1 ->
  is_set (voe_sync_interface_ s) = true.
Proof.
  induction 1 as [vcm now | s w ch voe rtcp receiver s' t _ IH E
                  | s w now s' t _ IH E]; intros D C.
  - simpl in C. contradiction.
  - apply ConfigureSync_Completed in E. destruct E as (E1 & E2 & _ & E4).
    rewrite E2. apply E4; congruence.
  - apply Process_keeps_configuration in E.
    destruct E as (_ & (E1 & E2 & _) & _).
    rewrite E2. apply IH; congruence.
Qed.

(** C2.  In every state the controller can be in, a [ConfigureSync] call
    with the arguments already in effect (channel id, sync interface, video
    RTCP module, video receiver) returns with the state exactly as it was
    (measurements, correlation lists and the [StreamSynchronization]
    instance included) and asks nothing of the collaborators. *)
Theorem ConfigureSync_idempotent :
  forall build w s ch voe rtcp receiver,
    Reachable build s ->
    same_configuration s ch voe rtcp receiver ->
    call (ConfigureSync build w ch voe rtcp receiver) s = (Completed, s, []).
Proof.
  intros build w s ch voe rtcp receiver R Same.
  pose proof (Reachable_sync_interface build s R) as D.
  pose proof (proj2 (no_op_test_spec s ch voe rtcp receiver) Same) as T.
  destruct Same as (Ec & Ev & _).
  unfold ConfigureSync. unfold_M.
  destruct (ch =? -1) eqn:Ech; simpl.
  - rewrite T. reflexivity.
  - apply Z.eqb_neq in Ech.
    destruct (RTC_DCHECK_IS_ON build) eqn:Ed; simpl.
    + assert (V : is_set voe = true) by (rewrite <- Ev; apply D; congruence).
      rewrite V. simpl. rewrite T. reflexivity.
    + rewrite orb_true_r. simpl. rewrite T. reflexivity.
Qed.

(** The witness: the example session after a first [ConfigureSync] and one
    completed cycle, its measurements and its [StreamSynchronization]
    instance no longer the initial ones. *)
Lemma ConfigureSync_idempotent_witness :
  Reachable Session.build Session.synced /\
  same_configuration Session.synced Session.channel (Some Session.voe)
    (Some Session.video_rtp_rtcp) (Some Session.video_receiver) /\
  call (ConfigureSync Session.build (Session.flowing 0) Session.channel
          (Some Session.voe) (Some Session.video_rtp_rtcp)
          (Some Session.video_receiver)) Session.synced
  = (Completed, Session.synced, []).
Proof.
  assert (R : Reachable Session.build Session.synced).
  { eapply reach_Process with (w := Session.flowing 0) (now := 1000).
    - eapply reach_ConfigureSync with
        (w := Session.starting) (ch := Session.channel)
        (voe := Some Session.voe) (rtcp := Some Session.video_rtp_rtcp)
        (receiver := Some Session.video_receiver).
      + apply (reach_new Session.build (Some Session.vcm) 0).
      + reflexivity.
    - reflexivity. }
  assert (C : same_configuration Session.synced Session.channel
                (Some Session.voe) (Some Session.video_rtp_rtcp)
                (Some Session.video_receiver)).
  { repeat split. }
  split; [exact R|]. split; [exact C|].
  exact (ConfigureSync_idempotent Session.build (Session.flowing 0)
           Session.synced Session.channel (Some Session.voe)
           (Some Session.video_rtp_rtcp) (Some Session.video_receiver) R C).
Defined.

(** C10.  A [ConfigureSync] call whose arguments differ from the stored
    configuration and that gets past its [RTC_DCHECK] (a call with channel
    id -1 always does) reads the SSRC through the video RTCP module it was
    given: with a null module the call dies on the dereference; otherwise it
    returns with the new configuration in effect and [sync_] a newly
    constructed [StreamSynchronization] for that SSRC and channel, whatever
    [sync_] held before. *)
Theorem ConfigureSync_changed_resets_sync :
  forall build w s ch voe rtcp receiver r s' t,
    ~ same_configuration s ch voe rtcp receiver ->
    dcheck_passes build ch voe = true ->
    call (ConfigureSync build w ch voe rtcp receiver) s = (r, s', t) ->
    match rtcp with
    | None => r = Faulted NullDereference
    | Some m =>
      r = Completed /\
      sync_ s' = Some (StreamSynchronization_new (SSRC w m) ch) /\
      same_configuration s' ch voe rtcp receiver
    end.
Proof.
  intros build w s ch voe rtcp receiver r s' t Diff D H.
  assert (T : (voe_channel_id_ s =? ch) &&
              ptr_eqb (voe_sync_interface_ s) voe &&
              ptr_eqb (video_receiver_ s) receiver &&
              ptr_eqb (video_rtp_rtcp_ s) rtcp = false).
  { destruct (_ && _) eqn:E; [|reflexivity].
    apply no_op_test_spec in E. contradiction. }
  unfold dcheck_passes in D.
  unfold ConfigureSync, same_configuration in *. unfold_M.
  destruct (ch =? -1) eqn:Ech; simpl in H.
  - rewrite T in H. simpl in H.
    destruct rtcp; simpl in H; pair_eq; simpl; auto 10.
  - simpl in D. rewrite D in H. simpl in H.
    rewrite T in H. simpl in H.
    destruct rtcp; simpl in H; pair_eq; simpl; auto 10.
Qed.

(** The witness: the bound controller after a completed cycle is disabled
    with channel id -1, once with the video RTCP module and once without. *)
Lemma ConfigureSync_changed_resets_sync_witness :
  (~ same_configuration Session.synced (-1) None
       (Some Session.video_rtp_rtcp) None /\
   dcheck_passes Session.build (-1) None = true /\
   sync_ Session.synced <>
     Some (StreamSynchronization_new 4660 (-1)) /\
   sync_ (snd (fst (call (ConfigureSync Session.build Session.starting (-1)
                            None (Some Session.video_rtp_rtcp) None)
                         Session.synced)))
   = Some (StreamSynchronization_new 4660 (-1))) /\
  (~ same_configuration Session.synced (-1) None None None /\
   fst (fst (call (ConfigureSync Session.build Session.starting (-1)
                     None None None) Session.synced))
   = Faulted NullDereference).
Proof.
  assert (D1 : ~ same_configuration Session.synced (-1) None
                 (Some Session.video_rtp_rtcp) None).
  { intros (E & _). discriminate E. }
  assert (D2 : ~ same_configuration Session.synced (-1) None None None).
  { intros (E & _). discriminate E. }
  split.
  - split; [exact D1|]. split; [reflexivity|]. split; [discriminate|].
    destruct (call (ConfigureSync Session.build Session.starting (-1) None
                      (Some Session.video_rtp_rtcp) None) Session.synced)
      as [[r s'] t] eqn:E.
    exact (proj1 (proj2
      (ConfigureSync_changed_resets_sync Session.build Session.starting
         Session.synced (-1) None (Some Session.video_rtp_rtcp) None r s' t
         D1 eq_refl E))).
  - split; [exact D2|].
    destruct (call (ConfigureSync Session.build Session.starting (-1) None
                      None None) Session.synced) as [[r s'] t] eqn:E.
    exact (ConfigureSync_changed_resets_sync Session.build Session.starting
             Session.synced (-1) None None None r s' t D2 eq_refl E).
Defined.

(** ** Process in the Active state *)

Lemma eqb_0_false (z : Z) : z <> 0 -> (z =? 0) = false.
Proof. apply Z.eqb_neq. Qed.

(** What a successful [UpdateMeasurements] says of its arguments and leaves
    in the record. *)
Lemma UpdateMeasurements_success w stream rtp_rtcp receiver stream' :
  UpdateMeasurements w stream rtp_rtcp receiver = (Value 0, stream') ->
  exists rr rc,
    rtp_rtcp = Some rr /\ receiver = Some rc /\
    Timestamp w rc = Some (latest_timestamp stream') /\
    LastReceivedTimeMs w rc = Some (latest_receive_time_ms stream') /\
    exists secs frac rtp,
      RemoteNTP w rr = (0, secs, frac, rtp) /\
      UpdateRtcpList w secs frac rtp (rtcp stream) = (true, rtcp stream').
Proof.
  unfold UpdateMeasurements. intros H.
  destruct receiver as [rc|]; [|discriminate H].
  destruct (Timestamp w rc) as [ts|] eqn:T; [|discriminate H].
  destruct (LastReceivedTimeMs w rc) as [t|] eqn:L; [|discriminate H].
  destruct rtp_rtcp as [rr|]; [|discriminate H].
  destruct (RemoteNTP w rr) as [[[st secs] frac] rtp] eqn:N.
  destruct (0 =? st) eqn:Est; simpl in H; [|discriminate H].
  apply Z.eqb_eq in Est. subst st.
  destruct (UpdateRtcpList w secs frac rtp (rtcp stream)) as [ok l] eqn:U.
  destruct ok; simpl in H; [|discriminate H].
  pair_eq. simpl. exists rr, rc.
  split; [reflexivity|]. split; [reflexivity|].
  split; [exact T|]. split; [exact L|].
  exists secs, frac, rtp. split; [exact N | exact U].
Qed.

(** Given two references that are not null, [UpdateMeasurements] returns. *)
Lemma UpdateMeasurements_returns w stream rtp_rtcp receiver f stream' :
  UpdateMeasurements w stream (Some rtp_rtcp) (Some receiver)
    = (Fault f, stream') -> False.
Proof.
  unfold UpdateMeasurements. intros H.
  destruct (Timestamp w receiver); [|discriminate H].
  destruct (LastReceivedTimeMs w receiver); [|discriminate H].
  destruct (RemoteNTP w rtp_rtcp) as [[[st secs] frac] rtp].
  destruct (0 =? st); simpl in H; [|discriminate H].
  destruct (UpdateRtcpList w secs frac rtp (rtcp stream)) as [ok l].
  destruct ok; discriminate H.
Qed.

(** Bring what is known of the successful measurement updates of a run into
    the form of [Measures]: both references set. *)
Ltac measured :=
  repeat match goal with
  | E : (?z =? 0) = true |- _ => apply Z.eqb_eq in E; subst z
  end;
  repeat match goal with
  | U : UpdateMeasurements _ _ ?a ?b = (Value 0, _) |- _ =>
    lazymatch a with
    | Some _ => lazymatch b with Some _ => fail | _ => idtac end
    | _ => idtac
    end;
    let Ea := fresh "Ea" in
    let Eb := fresh "Eb" in
    destruct (UpdateMeasurements_success _ _ _ _ _ U) as (? & ? & Ea & Eb & _);
    try discriminate Ea; try discriminate Eb;
    first [ injection Ea as Ea; match type of Ea with _ = ?v => subst v end
          | rewrite Ea in U ];
    first [ injection Eb as Eb; match type of Eb with _ = ?v => subst v end
          | rewrite Eb in U ]
  end.

(** State what [Process] does as a computation [H] to run. *)
Ltac start_Process build w now s H :=
  let r := fresh "r" in
  let s' := fresh "s'" in
  let t := fresh "t" in
  destruct (call (Process build w now) s) as [[r s'] t] eqn:H;
  unfold Process in H; unfold_M; simpl in H.

(** C3.  In the Active state, when a stage of the cycle fails (the delay
    estimate query, the RTP/RTCP handle query, the update of the video or of
    the audio measurement, the relative-delay computation, or the delay
    computation itself), [Process] returns without having called a setter
    of a collaborator, and leaves the controller bound as it was, ready for
    the next cycle. *)
Theorem Process_skips_failed_cycle :
  forall build w now s vcm voe video_rtp_rtcp video_receiver sync,
    Bound s vcm voe video_rtp_rtcp video_receiver sync ->
    StageFails w s vcm voe video_rtp_rtcp video_receiver sync ->
    exists s' t sync',
      call (Process build w now) s = (Completed, s', t) /\
      Forall (fun e => is_setter e = false) t /\
      Bound s' vcm voe video_rtp_rtcp video_receiver sync'.
Proof.
  intros build w now s vcm voe vrr vrc sync [Bc Bvcm Bvoe Brr Brc Bs] F.
  assert (Ech : (voe_channel_id_ s =? -1) = false) by now apply Z.eqb_neq.
  destruct F as [st j p E1 N | j p st vr vc E1 E2 N
                 | j p vr vc r mv E1 E2 E3 N
                 | j p vr vc mv r ma E1 E2 E3 E4 N
                 | j p ma mv rel [j' p' vr vc ma' mv' E1 E2 E3 E4] E5
                 | j p ma mv rel ta tv [j' p' vr vc ma' mv' E1 E2 E3 E4] E5 E6];
    try (pose proof (eqb_0_false _ N) as N');
    start_Process build w now s H;
    rewrite ?Brr, ?Brc in H;
    run H; try congruence;
    eexists; eexists; eexists;
    (split; [reflexivity|]);
    (split; [repeat constructor | constructor; simpl; rewrite ?Bs; eauto]).
Qed.

(** The witness: the bound controller at session start, when no sender
    report has arrived and the update of the video measurement fails. *)
Lemma Process_skips_failed_cycle_witness :
  Bound Session.bound Session.vcm Session.voe Session.video_rtp_rtcp
    Session.video_receiver (StreamSynchronization_new 4660 Session.channel) /\
  StageFails Session.starting Session.bound Session.vcm Session.voe
    Session.video_rtp_rtcp Session.video_receiver
    (StreamSynchronization_new 4660 Session.channel) /\
  exists s' t sync',
    call (Process Session.build Session.starting 1000) Session.bound
      = (Completed, s', t) /\
    Forall (fun e => is_setter e = false) t /\
    Bound s' Session.vcm Session.voe Session.video_rtp_rtcp
      Session.video_receiver sync'.
Proof.
  assert (B : Bound Session.bound Session.vcm Session.voe
                Session.video_rtp_rtcp Session.video_receiver
                (StreamSynchronization_new 4660 Session.channel)).
  { constructor; try reflexivity. discriminate. }
  assert (F : StageFails Session.starting Session.bound Session.vcm
                Session.voe Session.video_rtp_rtcp Session.video_receiver
                (StreamSynchronization_new 4660 Session.channel)).
  { eapply video_measurement_fails with (r := -1); try reflexivity.
    discriminate. }
  split; [exact B|]. split; [exact F|].
  exact (Process_skips_failed_cycle Session.build Session.starting 1000
           Session.bound Session.vcm Session.voe Session.video_rtp_rtcp
           Session.video_receiver _ B F).
Defined.

(** C5.  In the Active state, when every stage up to [ComputeDelays]
    succeeds, [Process] returns having called [SetMinimumPlayoutDelay] on
    the voice engine with the audio target and then, whatever the voice
    engine answered, [SetMinimumPlayoutDelay] on the video coding module
    with the video target.  An answer of -1 only adds the error log line
    between the two calls: the state the controller is left in does not
    depend on it. *)
Theorem Process_applies_video_delay :
  forall build w now s vcm voe video_rtp_rtcp video_receiver sync
         jitter playout audio video relative_delay_ms
         target_audio_delay_ms target_video_delay_ms,
    Bound s vcm voe video_rtp_rtcp video_receiver sync ->
    Computes w s vcm voe video_rtp_rtcp video_receiver sync
      jitter playout audio video relative_delay_ms
      target_audio_delay_ms target_video_delay_ms ->
    call (Process build w now) s =
      (Completed,
       set_sync_
         (Some (receive
                  (ComputeDelaysCall relative_delay_ms
                     (int_add jitter playout) 0 (Delay w vcm))
                  (receive (ComputeRelativeDelayCall audio video) sync)))
         (set_audio_measurement_ audio
            (set_video_measurement_ video (set_last_sync_time_ now s))),
       [Sync (ComputeRelativeDelayCall audio video);
        TraceCounter "SyncCurrentVideoDelay" (Delay w vcm);
        TraceCounter "SyncCurrentAudioDelay" (int_add jitter playout);
        TraceCounter "SyncRelativeDelay" relative_delay_ms;
        Sync (ComputeDelaysCall relative_delay_ms
                (int_add jitter playout) 0 (Delay w vcm));
        VoE_SetMinimumPlayoutDelay voe (voe_channel_id_ s)
          target_audio_delay_ms]
       ++ (if SetMinimumPlayoutDelay w voe (voe_channel_id_ s)
                target_audio_delay_ms =? -1
           then [LogError "Error setting voice delay."] else [])
       ++ [VCM_SetMinimumPlayoutDelay vcm target_video_delay_ms]).
Proof.
  intros build w now s vcm voe vrr vrc sync j p ma mv rel ta tv
    [Bc Bvcm Bvoe Brr Brc Bs] C.
  assert (Ech : (voe_channel_id_ s =? -1) = false) by now apply Z.eqb_neq.
  destruct C as [j p ma mv rel ta tv [j' p' vr vc ma' mv' E1 E2 E3 E4] E5 E6].
  start_Process build w now s H.
  rewrite ?Brr, ?Brc in H.
  run H; simpl; rewrite ?Bs; reflexivity.
Qed.

(** The witness: both streams flow and the voice engine refuses the audio
    delay; the video delay is still applied. *)
Lemma Process_applies_video_delay_witness :
  Bound Session.bound Session.vcm Session.voe Session.video_rtp_rtcp
    Session.video_receiver (StreamSynchronization_new 4660 Session.channel) /\
  Computes (Session.flowing (-1)) Session.bound Session.vcm Session.voe
    Session.video_rtp_rtcp Session.video_receiver
    (StreamSynchronization_new 4660 Session.channel)
    15 5 (audio_measurement_ Session.synced)
    (video_measurement_ Session.synced) 100 50 40 /\
  call (Process Session.build (Session.flowing (-1)) 1000) Session.bound =
    (Completed, Session.synced,
     [Sync (ComputeRelativeDelayCall (audio_measurement_ Session.synced)
              (video_measurement_ Session.synced));
      TraceCounter "SyncCurrentVideoDelay" 40;
      TraceCounter "SyncCurrentAudioDelay" 20;
      TraceCounter "SyncRelativeDelay" 100;
      Sync (ComputeDelaysCall 100 20 0 40);
      VoE_SetMinimumPlayoutDelay Session.voe Session.channel 50;
      LogError "Error setting voice delay.";
      VCM_SetMinimumPlayoutDelay Session.vcm 40]).
Proof.
  assert (B : Bound Session.bound Session.vcm Session.voe
                Session.video_rtp_rtcp Session.video_receiver
                (StreamSynchronization_new 4660 Session.channel)).
  { constructor; try reflexivity. discriminate. }
  assert (C : Computes (Session.flowing (-1)) Session.bound Session.vcm
                Session.voe Session.video_rtp_rtcp Session.video_receiver
                (StreamSynchronization_new 4660 Session.channel)
                15 5 (audio_measurement_ Session.synced)
                (video_measurement_ Session.synced) 100 50 40).
  { constructor; [econstructor|..]; reflexivity. }
  split; [exact B|]. split; [exact C|].
  exact (Process_applies_video_delay Session.build (Session.flowing (-1)) 1000
           Session.bound _ _ _ _ _ _ _ _ _ _ _ _ B C).
Defined.

(** X7.  The converse: whatever the state, a call of [Process] in which a setter
    of a collaborator is called is one in which the controller is bound and
    every stage succeeds. *)
Lemma Process_setters_need_every_stage :
  forall build w now s r s' t e,
    call (Process build w now) s = (r, s', t) ->
    In e t -> is_setter e = true ->
    exists vcm voe video_rtp_rtcp video_receiver sync
           jitter playout audio video relative_delay_ms
           target_audio_delay_ms target_video_delay_ms,
      Bound s vcm voe video_rtp_rtcp video_receiver sync /\
      Computes w s vcm voe video_rtp_rtcp video_receiver sync
        jitter playout audio video relative_delay_ms
        target_audio_delay_ms target_video_delay_ms.
Proof.
  intros build w now s r s' t e H I S.
  unfold Process in H. unfold_M. simpl in H.
  run H; simpl in I;
    repeat (destruct I as [I|I]; [subst e; try discriminate S|]);
    try contradiction.
  all: measured.
  all: match goal with
       | E : (voe_channel_id_ _ =? -1) = false |- _ => apply Z.eqb_neq in E
       end.
  all: do 12 eexists;
    (split; [ constructor; eassumption
            | econstructor; [econstructor|..]; eassumption ]).
Qed.

(** C9.  Whenever [Process] calls [ComputeDelays], the current audio delay
    it passes is the [int] sum of the two delays the voice engine's
    [GetDelayEstimate] reported for the channel, jitter buffer delay plus
    playout buffer delay: their sum whenever that is representable. *)
Theorem Process_feeds_summed_audio_delay :
  forall build w now s r s' t relative_delay_ms current_audio_delay_ms
         target_audio_delay_ms target_video_delay_ms,
    call (Process build w now) s = (r, s', t) ->
    In (Sync (ComputeDelaysCall relative_delay_ms current_audio_delay_ms
                target_audio_delay_ms target_video_delay_ms)) t ->
    exists voe jitter playout,
      voe_sync_interface_ s = Some voe /\
      GetDelayEstimate w voe (voe_channel_id_ s) = (0, jitter, playout) /\
      current_audio_delay_ms = int_add jitter playout /\
      (INT_MIN <= jitter + playout <= INT_MAX ->
       current_audio_delay_ms = jitter + playout).
Proof.
  intros build w now s r s' t rel a ta tv H I.
  unfold Process in H. unfold_M. simpl in H.
  run H; simpl in I;
    repeat (destruct I as [I|I]; [try discriminate I|]);
    try contradiction.
  all: inversion I; subst; clear I.
  all: match goal with
       | G : GetDelayEstimate _ _ _ = (?st, _, _), E : (?st =? 0) = true |- _ =>
         apply Z.eqb_eq in E; subst st
       end.
  all: eexists; eexists; eexists;
    (split; [reflexivity|]); (split; [eassumption|]);
    (split; [reflexivity|]); apply int_add_exact.
Qed.

(** The witness: the voice engine reports 15 ms and 5 ms, and
    [ComputeDelays] is called with 20 ms. *)
Lemma Process_feeds_summed_audio_delay_witness :
  In (Sync (ComputeDelaysCall 100 20 0 40))
     (snd (call (Process Session.build (Session.flowing 0) 1000)
             Session.bound)) /\
  GetDelayEstimate (Session.flowing 0) Session.voe Session.channel
    = (0, 15, 5) /\
  exists voe jitter playout,
    voe_sync_interface_ Session.bound = Some voe /\
    GetDelayEstimate (Session.flowing 0) voe (voe_channel_id_ Session.bound)
      = (0, jitter, playout) /\
    20 = int_add jitter playout /\
    (INT_MIN <= jitter + playout <= INT_MAX -> 20 = jitter + playout).
Proof.
  assert (I : In (Sync (ComputeDelaysCall 100 20 0 40))
                (snd (call (Process Session.build (Session.flowing 0) 1000)
                        Session.bound))).
  { vm_compute. tauto. }
  split; [exact I|]. split; [reflexivity|].
  exact (Process_feeds_summed_audio_delay Session.build (Session.flowing 0)
           1000 Session.bound Completed Session.synced _ 100 20 0 40
           eq_refl I).
Defined.

(** ** UpdateMeasurements *)

(** C4, as stated, fails.  At session start the receiver has a timestamp
    and a receive time and no sender report has arrived: the update fails,
    and the record holds the new timestamp and receive time. *)
Lemma UpdateMeasurements_failure_mutates :
  fst (UpdateMeasurements Session.starting Measurements_new
         (Some Session.video_rtp_rtcp) (Some Session.video_receiver))
  = Value (-1) /\
  latest_timestamp
    (snd (UpdateMeasurements Session.starting Measurements_new
            (Some Session.video_rtp_rtcp) (Some Session.video_receiver)))
  <> latest_timestamp Measurements_new /\
  latest_receive_time_ms
    (snd (UpdateMeasurements Session.starting Measurements_new
            (Some Session.video_rtp_rtcp) (Some Session.video_receiver)))
  <> latest_receive_time_ms Measurements_new.
Proof. vm_compute. repeat split; discriminate. Qed.

(** C4, amended.  When [UpdateMeasurements] fails it returns -1, and the
    record holds exactly what the steps before the failing one wrote.  When
    the receiver has no timestamp, the record is as it was.  When it has a
    timestamp and no receive time, the latest timestamp is the receiver's
    and nothing else has changed.  When [RemoteNTP] fails, the latest
    timestamp and receive time are the receiver's and the correlation list
    is as it was.  When [UpdateRtcpList] refuses the sample, the latest
    timestamp and receive time are the receiver's and the correlation list
    is the list as that call left it. *)
Theorem UpdateMeasurements_failure :
  forall w stream rtp_rtcp receiver r stream',
    UpdateMeasurements w stream (Some rtp_rtcp) (Some receiver)
      = (Value r, stream') ->
    r <> 0 ->
    r = -1 /\
    (Timestamp w receiver = None -> stream' = stream) /\
    (forall ts,
       Timestamp w receiver = Some ts ->
       LastReceivedTimeMs w receiver = None ->
       stream' = set_latest_timestamp ts stream) /\
    (forall ts t status secs frac rtp,
       Timestamp w receiver = Some ts ->
       LastReceivedTimeMs w receiver = Some t ->
       RemoteNTP w rtp_rtcp = (status, secs, frac, rtp) ->
       status <> 0 ->
       stream' = set_latest_receive_time_ms t (set_latest_timestamp ts stream)) /\
    (forall ts t secs frac rtp,
       Timestamp w receiver = Some ts ->
       LastReceivedTimeMs w receiver = Some t ->
       RemoteNTP w rtp_rtcp = (0, secs, frac, rtp) ->
       exists l,
         UpdateRtcpList w secs frac rtp (rtcp stream) = (false, l) /\
         stream' = set_rtcp l (set_latest_receive_time_ms t
                                 (set_latest_timestamp ts stream))).
Proof.
  intros w stream rtp_rtcp receiver r stream' H N.
  unfold UpdateMeasurements in H.
  destruct (Timestamp w receiver) as [ts|].
  2: { pair_eq. repeat split; try reflexivity; intros; discriminate. }
  destruct (LastReceivedTimeMs w receiver) as [t|].
  2: { pair_eq. repeat split; try reflexivity; intros; try discriminate.
       congruence. }
  destruct (RemoteNTP w rtp_rtcp) as [[[st secs] frac] rtp].
  destruct (0 =? st) eqn:Est; simpl in H.
  - apply Z.eqb_eq in Est. subst st.
    destruct (UpdateRtcpList w secs frac rtp (rtcp stream)) as [ok l] eqn:U.
    destruct ok; simpl in H; pair_eq; [congruence|].
    repeat split; try reflexivity; intros; try discriminate.
    + pair_eq. congruence.
    + pair_eq. exists l.
      match goal with
      | A : Some _ = Some _, B : Some _ = Some _ |- _ =>
        inversion A; inversion B; subst
      end.
      split; [exact U | reflexivity].
  - apply Z.eqb_neq in Est.
    pair_eq. repeat split; try reflexivity; intros; try discriminate.
    + match goal with
      | A : Some _ = Some _, B : Some _ = Some _ |- _ =>
        inversion A; inversion B; subst
      end.
      reflexivity.
    + pair_eq. congruence.
Qed.

(** The witness: at session start [RemoteNTP] fails and the record keeps
    the new timestamp and receive time; and when the sender report of an
    earlier cycle is read again, the list update refuses it and the list is
    as that call left it. *)
Lemma UpdateMeasurements_failure_witness :
  (UpdateMeasurements Session.starting Measurements_new
     (Some Session.video_rtp_rtcp) (Some Session.video_receiver)
   = (Value (-1),
      {| rtcp := []; latest_receive_time_ms := 7; latest_timestamp := 5 |}) /\
   -1 <> 0 /\
   {| rtcp := []; latest_receive_time_ms := 7; latest_timestamp := 5 |}
   = set_latest_receive_time_ms 7 (set_latest_timestamp 5 Measurements_new)) /\
  (UpdateMeasurements (Session.flowing 0) (video_measurement_ Session.synced)
     (Some Session.video_rtp_rtcp) (Some Session.video_receiver)
   = (Value (-1), video_measurement_ Session.synced) /\
   exists l,
     Session.newer_report 3900000000 0 45000
       (rtcp (video_measurement_ Session.synced)) = (false, l) /\
     video_measurement_ Session.synced
     = set_rtcp l (set_latest_receive_time_ms 7
                     (set_latest_timestamp 90000
                        (video_measurement_ Session.synced)))).
Proof.
  assert (N : -1 <> 0) by discriminate.
  split.
  - split; [reflexivity|]. split; [exact N|].
    destruct (UpdateMeasurements_failure Session.starting Measurements_new
                Session.video_rtp_rtcp Session.video_receiver (-1)
                {| rtcp := []; latest_receive_time_ms := 7;
                   latest_timestamp := 5 |} eq_refl N)
      as (_ & _ & _ & C & _).
    apply (C 5 7 (-1) 0 0 0); try reflexivity. exact N.
  - split; [reflexivity|].
    destruct (UpdateMeasurements_failure (Session.flowing 0)
                (video_measurement_ Session.synced)
                Session.video_rtp_rtcp Session.video_receiver (-1)
                (video_measurement_ Session.synced) eq_refl N)
      as (_ & _ & _ & _ & D).
    exact (D 90000 7 3900000000 0 45000 eq_refl eq_refl eq_refl).
Defined.

(** ** TimeUntilNextProcess *)

(** C6, as stated, fails.  1001 ms after the last cycle the hint is -1. *)
Lemma TimeUntilNextProcess_negative :
  TimeUntilNextProcess Session.build 1001 Session.bound = -1 /\
  ~ (forall build now s, 0 <= TimeUntilNextProcess build now s).
Proof.
  split; [reflexivity|].
  intros H. specialize (H Session.build 1001 Session.bound).
  vm_compute in H. apply H. reflexivity.
Qed.

(** C6, amended.  With [elapsed] the milliseconds from the last cycle (or
    from construction) to the call, not negative, [TimeUntilNextProcess]
    returns [1000 - elapsed]: it is non-negative exactly when at most
    1000 ms have elapsed, and negative after that. *)
Theorem TimeUntilNextProcess_value :
  forall build now s elapsed,
    Milliseconds build (int64_sub now (last_sync_time_ s)) = elapsed ->
    0 <= elapsed <= INT64_MAX ->
    TimeUntilNextProcess build now s = 1000 - elapsed /\
    (0 <= TimeUntilNextProcess build now s <-> elapsed <= 1000).
Proof.
  intros build now s elapsed E R.
  assert (V : TimeUntilNextProcess build now s = 1000 - elapsed).
  { unfold TimeUntilNextProcess. rewrite E.
    apply int64_sub_exact. unfold INT64_MIN, INT64_MAX in *. lia. }
  rewrite V. split; [reflexivity | lia].
Qed.

(** The witness: half a second, and two seconds, after the last cycle. *)
Lemma TimeUntilNextProcess_value_witness :
  (Milliseconds Session.build (int64_sub 500 (last_sync_time_ Session.bound))
     = 500 /\
   0 <= 500 <= INT64_MAX /\
   TimeUntilNextProcess Session.build 500 Session.bound = 1000 - 500) /\
  (Milliseconds Session.build (int64_sub 2000 (last_sync_time_ Session.bound))
     = 2000 /\
   0 <= 2000 <= INT64_MAX /\
   TimeUntilNextProcess Session.build 2000 Session.bound = 1000 - 2000).
Proof.
  assert (R1 : 0 <= 500 <= INT64_MAX) by (vm_compute; split; discriminate).
  assert (R2 : 0 <= 2000 <= INT64_MAX) by (vm_compute; split; discriminate).
  split; (split; [reflexivity|]).
  - split; [exact R1|].
    exact (proj1 (TimeUntilNextProcess_value Session.build 500 Session.bound
                    500 eq_refl R1)).
  - split; [exact R2|].
    exact (proj1 (TimeUntilNextProcess_value Session.build 2000 Session.bound
                    2000 eq_refl R2)).
Defined.

(** ** The delay distributor *)

(** The spec's scenario: audio measured 100 ms behind video, current delays
    20 ms and 40 ms, maximum step 30 ms, maximum delay 400 ms. *)
Example ComputeDelays_scenario :
  DelayDistributor.ComputeDelays Session.distributor 100 20 40 = (50, 40).
Proof. reflexivity. Qed.

(** No target is above the configured maximum, unless the current delay
    already is. *)
Lemma ComputeDelays_maximum :
  forall cfg relative_delay_ms current_audio_delay_ms current_video_delay_ms
         target_audio_delay_ms target_video_delay_ms,
    DelayDistributor.ComputeDelays cfg relative_delay_ms
      current_audio_delay_ms current_video_delay_ms
    = (target_audio_delay_ms, target_video_delay_ms) ->
    target_audio_delay_ms
      <= Z.max current_audio_delay_ms (DelayDistributor.max_delay_ms cfg) /\
    target_video_delay_ms
      <= Z.max current_video_delay_ms (DelayDistributor.max_delay_ms cfg).
Proof.
  intros cfg rel a v ta tv H.
  unfold DelayDistributor.ComputeDelays, DelayDistributor.raise in H.
  destruct (Z.abs rel <=? DelayDistributor.hysteresis_ms cfg);
    [|destruct (0 <? rel)]; pair_eq; lia.
Qed.

(** C7.  With a maximum step that is not negative, [ComputeDelays] returns
    a video target that is at least the current video delay passed in, and
    neither target is further than the maximum step from its current delay. *)
Theorem ComputeDelays_floor_and_step :
  forall cfg relative_delay_ms current_audio_delay_ms current_video_delay_ms
         target_audio_delay_ms target_video_delay_ms,
    0 <= DelayDistributor.max_step_ms cfg ->
    DelayDistributor.ComputeDelays cfg relative_delay_ms
      current_audio_delay_ms current_video_delay_ms
    = (target_audio_delay_ms, target_video_delay_ms) ->
    current_video_delay_ms <= target_video_delay_ms /\
    Z.abs (target_audio_delay_ms - current_audio_delay_ms)
      <= DelayDistributor.max_step_ms cfg /\
    Z.abs (target_video_delay_ms - current_video_delay_ms)
      <= DelayDistributor.max_step_ms cfg.
Proof.
  intros cfg rel a v ta tv S H.
  unfold DelayDistributor.ComputeDelays, DelayDistributor.raise in H.
  destruct (Z.abs rel <=? DelayDistributor.hysteresis_ms cfg);
    [|destruct (0 <? rel)]; pair_eq; lia.
Qed.

(** The witness: the spec's scenario. *)
Lemma ComputeDelays_floor_and_step_witness :
  0 <= DelayDistributor.max_step_ms Session.distributor /\
  DelayDistributor.ComputeDelays Session.distributor 100 20 40 = (50, 40) /\
  40 <= 40 /\ Z.abs (50 - 20) <= 30 /\ Z.abs (40 - 40) <= 30.
Proof.
  assert (S : 0 <= DelayDistributor.max_step_ms Session.distributor)
    by (vm_compute; discriminate).
  split; [exact S|]. split; [reflexivity|].
  exact (ComputeDelays_floor_and_step Session.distributor 100 20 40 50 40
           S eq_refl).
Defined.

(** C8.  When the relative delay is within the hysteresis band around zero,
    [ComputeDelays] returns the current delays as the targets. *)
Theorem ComputeDelays_hysteresis :
  forall cfg relative_delay_ms current_audio_delay_ms current_video_delay_ms,
    Z.abs relative_delay_ms <= DelayDistributor.hysteresis_ms cfg ->
    DelayDistributor.ComputeDelays cfg relative_delay_ms
      current_audio_delay_ms current_video_delay_ms
    = (current_audio_delay_ms, current_video_delay_ms).
Proof.
  intros cfg rel a v H.
  unfold DelayDistributor.ComputeDelays.
  apply Z.leb_le in H. rewrite H. reflexivity.
Qed.

(** The witness: a skew of -7 ms with a band of 10 ms. *)
Lemma ComputeDelays_hysteresis_witness :
  Z.abs (-7) <= DelayDistributor.hysteresis_ms Session.distributor /\
  DelayDistributor.ComputeDelays Session.distributor (-7) 20 40 = (20, 40).
Proof.
  assert (H : Z.abs (-7) <= DelayDistributor.hysteresis_ms Session.distributor)
    by (vm_compute; discriminate).
  split; [exact H|].
  exact (ComputeDelays_hysteresis Session.distributor (-7) 20 40 H).
Defined.

(** * Further properties of the controller *)

(** ** What each member function leaves alone *)

(** X1.  Whatever way a [Process] call ends (controller disabled, a stage
    failed, targets applied, or a fault), it restarts the interval: the
    state it leaves has the tick of the call as [last_sync_time_], so the
    hint [TimeUntilNextProcess] gives afterwards is 1000 minus the
    milliseconds elapsed since that call. *)
Theorem Process_restarts_interval :
  forall build w now s later,
    last_sync_time_ (snd (fst (call (Process build w now) s))) = now /\
    TimeUntilNextProcess build later (snd (fst (call (Process build w now) s)))
    = int64_sub 1000 (Milliseconds build (int64_sub later now)).
Proof.
  intros build w now s later.
  assert (L : last_sync_time_ (snd (fst (call (Process build w now) s))) = now).
  { start_Process build w now s H. run H; reflexivity. }
  split; [exact L|].
  unfold TimeUntilNextProcess. rewrite L. reflexivity.
Qed.

(** [Process] keeps the constructor arguments of the instance behind
    [sync_]. *)
Lemma Process_keeps_sync_identity build w now s r s' t y :
  call (Process build w now) s = (r, s', t) ->
  sync_ s = Some y ->
  exists y',
    sync_ s' = Some y' /\
    video_primary_ssrc y' = video_primary_ssrc y /\
    audio_channel_id y' = audio_channel_id y.
Proof.
  intros H Es. unfold Process in H. unfold_M. simpl in H.
  run H; simpl; rewrite ?Es; eexists; (split; [reflexivity|]); split; reflexivity.
Qed.

(** X2.  A [Process] call never rebinds the controller, whatever way it
    ends: the video coding module, the channel id, the three collaborator
    pointers are as before, and [sync_] is still unset, or still holds an
    instance for the same SSRC and channel. *)
Theorem Process_never_rebinds :
  forall build w now s,
    vcm_ (snd (fst (call (Process build w now) s))) = vcm_ s /\
    same_configuration (snd (fst (call (Process build w now) s)))
      (voe_channel_id_ s) (voe_sync_interface_ s)
      (video_rtp_rtcp_ s) (video_receiver_ s) /\
    match sync_ s with
    | None => sync_ (snd (fst (call (Process build w now) s))) = None
    | Some y =>
      exists y',
        sync_ (snd (fst (call (Process build w now) s))) = Some y' /\
        video_primary_ssrc y' = video_primary_ssrc y /\
        audio_channel_id y' = audio_channel_id y
    end.
Proof.
  intros build w now s.
  destruct (call (Process build w now) s) as [[r s'] t] eqn:H. simpl.
  destruct (Process_keeps_configuration build w now s r s' t H) as (V & C & I).
  split; [exact V|]. split; [exact C|].
  destruct (sync_ s) as [y|] eqn:Es.
  - exact (Process_keeps_sync_identity build w now s r s' t y H Es).
  - simpl in I. destruct (sync_ s'); [discriminate I | reflexivity].
Qed.

(** X3.  A [ConfigureSync] call, whatever its arguments and whatever way it
    ends, leaves both streams' measurements (correlation lists included),
    [last_sync_time_] and the video coding module pointer as they were, and
    asks nothing observable of the collaborators: a change of channel does
    not clear the measurements taken for the previous one. *)
Theorem ConfigureSync_keeps_measurements :
  forall build w s ch voe rtcp receiver,
    audio_measurement_
      (snd (fst (call (ConfigureSync build w ch voe rtcp receiver) s)))
    = audio_measurement_ s /\
    video_measurement_
      (snd (fst (call (ConfigureSync build w ch voe rtcp receiver) s)))
    = video_measurement_ s /\
    last_sync_time_
      (snd (fst (call (ConfigureSync build w ch voe rtcp receiver) s)))
    = last_sync_time_ s /\
    vcm_ (snd (fst (call (ConfigureSync build w ch voe rtcp receiver) s)))
    = vcm_ s /\
    snd (call (ConfigureSync build w ch voe rtcp receiver) s) = [].
Proof.
  intros build w s ch voe rtcp receiver.
  unfold ConfigureSync. unfold_M.
  destruct (ch =? -1); simpl;
    [| destruct (is_set voe || negb (RTC_DCHECK_IS_ON build)); simpl ].
  all: try (repeat split; reflexivity).
  all: destruct (_ && _); simpl; try (repeat split; reflexivity).
  all: destruct rtcp; simpl; repeat split; reflexivity.
Qed.

(** The two ways a [ConfigureSync] call returns. *)
Lemma ConfigureSync_outcome build w s ch voe rtcp receiver s' t :
  call (ConfigureSync build w ch voe rtcp receiver) s = (Completed, s', t) ->
  (same_configuration s ch voe rtcp receiver /\ s' = s) \/
  (~ same_configuration s ch voe rtcp receiver /\
   same_configuration s' ch voe rtcp receiver /\
   exists m, rtcp = Some m /\
             sync_ s' = Some (StreamSynchronization_new (SSRC w m) ch)).
Proof.
  unfold ConfigureSync. unfold_M. intros H.
  destruct (ch =? -1) eqn:Ech; simpl in H;
    [ | destruct (is_set voe) eqn:Ev; simpl in H;
        [ | destruct (RTC_DCHECK_IS_ON build) eqn:Ed; simpl in H;
            [ discriminate | ] ] ].
  all: destruct (_ && _) eqn:Eq in H; simpl in H;
    [ apply no_op_test_spec in Eq; pair_eq; left; split; [exact Eq | reflexivity]
    | right; split;
      [ intros Same; apply no_op_test_spec in Same; congruence
      | destruct rtcp; simpl in H; pair_eq; try discriminate;
        split; [repeat split | eexists; split; reflexivity] ] ].
Qed.

(** X4.  A [ConfigureSync] call that returns leaves exactly its four
    arguments as the stored configuration; and either it changed nothing at
    all, or [sync_] is a newly constructed instance for the SSRC of the
    video RTCP module it was given and for its channel id. *)
Theorem ConfigureSync_stores_arguments :
  forall build w s ch voe rtcp receiver s' t,
    call (ConfigureSync build w ch voe rtcp receiver) s = (Completed, s', t) ->
    same_configuration s' ch voe rtcp receiver /\
    (s' = s \/
     exists m, rtcp = Some m /\
               sync_ s' = Some (StreamSynchronization_new (SSRC w m) ch)).
Proof.
  intros build w s ch voe rtcp receiver s' t H.
  destruct (ConfigureSync_outcome build w s ch voe rtcp receiver s' t H)
    as [(Same & E) | (_ & Same & S)].
  - subst s'. auto.
  - auto.
Qed.

(** The witness: the bound controller of the example session is given a
    second video receiver. *)
Lemma ConfigureSync_stores_arguments_witness :
  call (ConfigureSync Session.build Session.starting Session.channel
          (Some Session.voe) (Some Session.video_rtp_rtcp) (Some 9%N))
       Session.synced
  = (Completed,
     set_sync_ (Some (StreamSynchronization_new 4660 Session.channel))
       (set_video_receiver_ (Some 9%N) Session.synced), []) /\
  same_configuration
    (set_sync_ (Some (StreamSynchronization_new 4660 Session.channel))
       (set_video_receiver_ (Some 9%N) Session.synced))
    Session.channel (Some Session.voe) (Some Session.video_rtp_rtcp)
    (Some 9%N).
Proof.
  split; [reflexivity|].
  exact (proj1 (ConfigureSync_stores_arguments Session.build Session.starting
                  Session.synced Session.channel (Some Session.voe)
                  (Some Session.video_rtp_rtcp) (Some 9%N) _ [] eq_refl)).
Defined.

(** ** Invariants of the reachable states *)

(** A bound controller has a video RTCP module and a [StreamSynchronization]
    instance, and the instance was constructed for the stored channel id. *)
Lemma Reachable_members build s :
  Reachable build s ->
  (voe_channel_id_ s <> -1 ->
   is_set (video_rtp_rtcp_ s) = true /\ is_set (sync_ s) = true) /\
  (forall y, sync_ s = Some y -> audio_channel_id y = voe_channel_id_ s).
Proof.
  induction 1 as [vcm now | s w ch voe rtcp receiver s' t _ IH E
                  | s w now s' t _ IH E].
  - split; [intros C; simpl in C; contradiction | discriminate].
  - apply ConfigureSync_outcome in E.
    destruct E as [(_ & E) | (_ & (Ec & _ & _ & Er) & m & Em & Es)].
    + subst s'. exact IH.
    + rewrite Er, Es, Ec, Em. split; [auto|].
      intros y Ey. inversion Ey. reflexivity.
  - destruct IH as (IH1 & IH2).
    pose proof (Process_keeps_configuration build w now s _ _ _ E)
      as (_ & (Ec & _ & _ & Er) & Ei).
    rewrite Ec, Er, Ei. split; [exact IH1|].
    intros y' Ey'.
    destruct (sync_ s) as [y|] eqn:Es;
      [|rewrite Ey' in Ei; discriminate Ei].
    destruct (Process_keeps_sync_identity build w now s _ _ _ y E Es)
      as (y'' & Ey'' & _ & Ea).
    rewrite Ey' in Ey''. inversion Ey''. subst y''.
    rewrite Ea. apply IH2. reflexivity.
Qed.

Lemma Session_synced_Reachable : Reachable Session.build Session.synced.
Proof.
  eapply reach_Process with (w := Session.flowing 0) (now := 1000).
  - eapply reach_ConfigureSync with
      (w := Session.starting) (ch := Session.channel)
      (voe := Some Session.voe) (rtcp := Some Session.video_rtp_rtcp)
      (receiver := Some Session.video_receiver).
    + apply (reach_new Session.build (Some Session.vcm) 0).
    + reflexivity.
  - reflexivity.
Qed.

(** X5.  In every state the controller can be in, if it is bound to a
    channel then the members the two leading assertions of [Process] test
    are set: the video RTCP module and [sync_] always, the sync interface
    where [RTC_DCHECK] is compiled in.  And whenever [sync_] is set, it was
    constructed for the channel id now stored. *)
Theorem Reachable_assertions_hold :
  forall build s,
    Reachable build s ->
    (voe_channel_id_ s <> -1 ->
     is_set (video_rtp_rtcp_ s) = true /\
     is_set (sync_ s) = true /\
     (RTC_DCHECK_IS_ON build = true -> is_set (voe_sync_interface_ s) = true)) /\
    (forall y, sync_ s = Some y -> audio_channel_id y = voe_channel_id_ s).
Proof.
  intros build s R.
  destruct (Reachable_members build s R) as (M & C).
  split; [|exact C].
  intros A. destruct (M A) as (M1 & M2).
  split; [exact M1|]. split; [exact M2|].
  intros D. exact (Reachable_sync_interface build s R D A).
Qed.

(** The witness: the example session after one completed cycle. *)
Lemma Reachable_assertions_hold_witness :
  Reachable Session.build Session.synced /\
  voe_channel_id_ Session.synced <> -1 /\
  is_set (video_rtp_rtcp_ Session.synced) = true /\
  is_set (sync_ Session.synced) = true /\
  (RTC_DCHECK_IS_ON Session.build = true ->
   is_set (voe_sync_interface_ Session.synced) = true).
Proof.
  assert (A : voe_channel_id_ Session.synced <> -1) by discriminate.
  split; [exact Session_synced_Reachable|]. split; [exact A|].
  exact (proj1 (Reachable_assertions_hold Session.build Session.synced
                  Session_synced_Reachable) A).
Defined.

(** X6.  [Process] always returns, in a build with [RTC_DCHECK] compiled
    in, from any state the controller can be in whose video coding module
    is set and, when bound, whose video receiver is set, as long as the
    voice engine hands out non-null pointers whenever [GetRtpRtcp] reports
    success: no assertion fails and no null pointer is followed. *)
Theorem Process_completes :
  forall build w now s,
    Reachable build s ->
    RTC_DCHECK_IS_ON build = true ->
    is_set (vcm_ s) = true ->
    (voe_channel_id_ s <> -1 -> is_set (video_receiver_ s) = true) ->
    (forall voe ch a b,
       GetRtpRtcp w voe ch = (0, a, b) -> is_set a = true /\ is_set b = true) ->
    fst (fst (call (Process build w now) s)) = Completed.
Proof.
  intros build w now s R D V Rc W.
  destruct (voe_channel_id_ s =? -1) eqn:Ech.
  - apply Z.eqb_eq in Ech. rewrite Process_Disabled by exact Ech.
    destruct (vcm_ s); [reflexivity | discriminate V].
  - apply Z.eqb_neq in Ech.
    destruct (Reachable_members build s R) as (M & _).
    destruct (M Ech) as (M1 & M2).
    pose proof (Reachable_sync_interface build s R D Ech) as M3.
    specialize (Rc Ech).
    apply Z.eqb_neq in Ech.
    destruct (vcm_ s) as [vcm|] eqn:E1; [|discriminate V].
    destruct (video_rtp_rtcp_ s) as [vrr|] eqn:E2; [|discriminate M1].
    destruct (sync_ s) as [sync|] eqn:E3; [|discriminate M2].
    destruct (voe_sync_interface_ s) as [voe|] eqn:E4; [|discriminate M3].
    destruct (video_receiver_ s) as [vrc|] eqn:E5; [|discriminate Rc].
    start_Process build w now s H.
    rewrite ?E2, ?E5 in H.
    run H; simpl; try reflexivity.
    all: try match goal with
         | G : GetRtpRtcp _ _ _ = (0, _, _) |- _ =>
           destruct (W _ _ _ _ G) as (G1 & G2);
           try discriminate G1; try discriminate G2
         end.
    all: match goal with
         | U : UpdateMeasurements _ _ (Some _) (Some _) = (Fault _, _) |- _ =>
           destruct (UpdateMeasurements_returns _ _ _ _ _ _ U)
         end.
Qed.

(** The witness: the example session after one completed cycle, run for
    another cycle at session start conditions. *)
Lemma Process_completes_witness :
  Reachable Session.build Session.synced /\
  RTC_DCHECK_IS_ON Session.build = true /\
  is_set (vcm_ Session.synced) = true /\
  fst (fst (call (Process Session.build Session.starting 2000) Session.synced))
  = Completed.
Proof.
  split; [exact Session_synced_Reachable|].
  split; [reflexivity|]. split; [reflexivity|].
  apply (Process_completes Session.build Session.starting 2000 Session.synced
           Session_synced_Reachable eq_refl eq_refl).
  - intros _. reflexivity.
  - intros voe ch a b G. simpl in G. inversion G. split; reflexivity.
Defined.

(** ** What a cycle asks of the collaborators *)

(** The witness of X7: the video setter call of the example cycle. *)
Lemma Process_setters_need_every_stage_witness :
  In (VCM_SetMinimumPlayoutDelay Session.vcm 40)
     (snd (call (Process Session.build (Session.flowing 0) 1000)
             Session.bound)) /\
  exists vcm voe video_rtp_rtcp video_receiver sync
         jitter playout audio video relative_delay_ms
         target_audio_delay_ms target_video_delay_ms,
    Bound Session.bound vcm voe video_rtp_rtcp video_receiver sync /\
    Computes (Session.flowing 0) Session.bound vcm voe video_rtp_rtcp
      video_receiver sync jitter playout audio video relative_delay_ms
      target_audio_delay_ms target_video_delay_ms.
Proof.
  assert (I : In (VCM_SetMinimumPlayoutDelay Session.vcm 40)
                (snd (call (Process Session.build (Session.flowing 0) 1000)
                        Session.bound))).
  { vm_compute. tauto. }
  split; [exact I|].
  exact (Process_setters_need_every_stage Session.build (Session.flowing 0)
           1000 Session.bound Completed Session.synced _
           (VCM_SetMinimumPlayoutDelay Session.vcm 40) eq_refl I eq_refl).
Defined.

(** X8.  Whatever the state and whatever the collaborators answer, the
    setter calls of one [Process] call are either none, or exactly two: one
    [SetMinimumPlayoutDelay] on the sync interface for the stored channel,
    followed by one on the video coding module.  No cycle sets one delay
    without the other, or a delay twice. *)
Theorem Process_setter_calls :
  forall build w now s,
    filter is_setter (snd (call (Process build w now) s)) = [] \/
    exists vcm voe target_audio_delay_ms target_video_delay_ms,
      vcm_ s = Some vcm /\
      voe_sync_interface_ s = Some voe /\
      filter is_setter (snd (call (Process build w now) s))
      = [VoE_SetMinimumPlayoutDelay voe (voe_channel_id_ s)
           target_audio_delay_ms;
         VCM_SetMinimumPlayoutDelay vcm target_video_delay_ms].
Proof.
  intros build w now s.
  start_Process build w now s H.
  run H; simpl;
    first [ left; reflexivity
          | right; do 4 eexists; repeat split; reflexivity ].
Qed.

(** X9.  Whenever [Process] calls [ComputeDelays], the audio target it
    passes in is 0, the video target it passes in is the current delay of
    the video coding module, and the relative delay is the one
    [ComputeRelativeDelay] returned, with success, in the same call. *)
Theorem Process_ComputeDelays_arguments :
  forall build w now s r s' t relative_delay_ms current_audio_delay_ms
         target_audio_delay_ms target_video_delay_ms,
    call (Process build w now) s = (r, s', t) ->
    In (Sync (ComputeDelaysCall relative_delay_ms current_audio_delay_ms
                target_audio_delay_ms target_video_delay_ms)) t ->
    target_audio_delay_ms = 0 /\
    exists vcm sync audio video,
      vcm_ s = Some vcm /\
      target_video_delay_ms = Delay w vcm /\
      sync_ s = Some sync /\
      In (Sync (ComputeRelativeDelayCall audio video)) t /\
      ComputeRelativeDelay w sync audio video = (true, relative_delay_ms).
Proof.
  intros build w now s r s' t rel a ta tv H I.
  unfold Process in H. unfold_M. simpl in H.
  run H; simpl in I;
    repeat (destruct I as [I|I]; [try discriminate I|]);
    try contradiction.
  all: inversion I; subst; clear I.
  all: split; [reflexivity|]; do 4 eexists;
    (split; [reflexivity|]); (split; [reflexivity|]);
    (split; [reflexivity|]); (split; [left; reflexivity | eassumption]).
Qed.

(** The witness: the example cycle. *)
Lemma Process_ComputeDelays_arguments_witness :
  In (Sync (ComputeDelaysCall 100 20 0 40))
     (snd (call (Process Session.build (Session.flowing 0) 1000)
             Session.bound)) /\
  Delay (Session.flowing 0) Session.vcm = 40 /\
  (0 = 0 /\
   exists vcm sync audio video,
     vcm_ Session.bound = Some vcm /\
     40 = Delay (Session.flowing 0) vcm /\
     sync_ Session.bound = Some sync /\
     In (Sync (ComputeRelativeDelayCall audio video))
        (snd (call (Process Session.build (Session.flowing 0) 1000)
                Session.bound)) /\
     ComputeRelativeDelay (Session.flowing 0) sync audio video = (true, 100)).
Proof.
  assert (I : In (Sync (ComputeDelaysCall 100 20 0 40))
                (snd (call (Process Session.build (Session.flowing 0) 1000)
                        Session.bound))).
  { vm_compute. tauto. }
  split; [exact I|]. split; [reflexivity|].
  exact (Process_ComputeDelays_arguments Session.build (Session.flowing 0)
           1000 Session.bound Completed Session.synced _ 100 20 0 40
           eq_refl I).
Defined.

(** X10.  Whenever [Process] calls [ComputeRelativeDelay], both
    measurements it passes were completed by successful [UpdateMeasurements]
    calls of this same cycle.  The video one holds the timestamp and receive
    time the video receiver reported in this cycle, the audio one those of
    the voice receiver that [GetRtpRtcp] returned: a timestamp or receive
    time left by an earlier failed update is overwritten before the
    computation.  Each correlation list is what [UpdateRtcpList], accepting
    the sender report read in this cycle, made of the list stored before the
    cycle, whatever earlier updates had left in that stored list. *)
Theorem Process_measures_before_computing :
  forall build w now s r s' t audio video,
    call (Process build w now) s = (r, s', t) ->
    In (Sync (ComputeRelativeDelayCall audio video)) t ->
    exists video_rtp_rtcp video_receiver voe voice_rtp_rtcp voice_receiver,
      video_rtp_rtcp_ s = Some video_rtp_rtcp /\
      video_receiver_ s = Some video_receiver /\
      voe_sync_interface_ s = Some voe /\
      GetRtpRtcp w voe (voe_channel_id_ s)
        = (0, Some voice_rtp_rtcp, Some voice_receiver) /\
      UpdateMeasurements w (video_measurement_ s)
        (Some video_rtp_rtcp) (Some video_receiver) = (Value 0, video) /\
      UpdateMeasurements w (audio_measurement_ s)
        (Some voice_rtp_rtcp) (Some voice_receiver) = (Value 0, audio) /\
      Timestamp w video_receiver = Some (latest_timestamp video) /\
      LastReceivedTimeMs w video_receiver
        = Some (latest_receive_time_ms video) /\
      Timestamp w voice_receiver = Some (latest_timestamp audio) /\
      LastReceivedTimeMs w voice_receiver
        = Some (latest_receive_time_ms audio) /\
      (exists secs frac rtp,
         RemoteNTP w video_rtp_rtcp = (0, secs, frac, rtp) /\
         UpdateRtcpList w secs frac rtp (rtcp (video_measurement_ s))
           = (true, rtcp video)) /\
      (exists secs frac rtp,
         RemoteNTP w voice_rtp_rtcp = (0, secs, frac, rtp) /\
         UpdateRtcpList w secs frac rtp (rtcp (audio_measurement_ s))
           = (true, rtcp audio)).
Proof.
  intros build w now s r s' t ma mv H I.
  unfold Process in H. unfold_M. simpl in H.
  run H; simpl in I;
    repeat (destruct I as [I|I]; [try discriminate I|]);
    try contradiction.
  all: inversion I; subst; clear I.
  all: measured.
  all: match goal with
       | V : UpdateMeasurements _ (video_measurement_ _) (Some ?vrr) (Some ?vrc)
             = (Value 0, _),
         A : UpdateMeasurements _ (audio_measurement_ _) (Some ?arr) (Some ?arc)
             = (Value 0, _) |- _ =>
         destruct (UpdateMeasurements_success _ _ _ _ _ V)
           as (vrr' & vrc' & V1 & V2 & V3 & V4 & V5);
         destruct (UpdateMeasurements_success _ _ _ _ _ A)
           as (arr' & arc' & A1 & A2 & A3 & A4 & A5);
         inversion V1; inversion V2; inversion A1; inversion A2; subst;
         exists vrr', vrc'; eexists; exists arr', arc'
       end.
  all: repeat (split; [first [reflexivity | eassumption]|]); assumption.
Qed.

(** The witness: the example cycle, started from records a failed update
    has left a timestamp and a receive time in. *)
Lemma Process_measures_before_computing_witness :
  In (Sync (ComputeRelativeDelayCall (audio_measurement_ Session.synced)
              (video_measurement_ Session.synced)))
     (snd (call (Process Session.build (Session.flowing 0) 1000)
             (snd (fst (call (Process Session.build Session.starting 500)
                          Session.bound))))) /\
  latest_timestamp
    (video_measurement_
       (snd (fst (call (Process Session.build Session.starting 500)
                    Session.bound)))) = 5 /\
  latest_timestamp (video_measurement_ Session.synced) = 90000 /\
  Timestamp (Session.flowing 0) Session.video_receiver = Some 90000.
Proof.
  assert (I : In (Sync (ComputeRelativeDelayCall
                          (audio_measurement_ Session.synced)
                          (video_measurement_ Session.synced)))
                (snd (call (Process Session.build (Session.flowing 0) 1000)
                        (snd (fst (call (Process Session.build
                                           Session.starting 500)
                                     Session.bound)))))).
  { vm_compute. tauto. }
  split; [exact I|]. split; [reflexivity|]. split; [reflexivity|].
  destruct (call (Process Session.build (Session.flowing 0) 1000)
              (snd (fst (call (Process Session.build Session.starting 500)
                           Session.bound)))) as [[r s'] t] eqn:E.
  destruct (Process_measures_before_computing Session.build
              (Session.flowing 0) 1000 _ r s' t _ _ E I)
    as (vrr & vrc & voe & arr & arc & _ & Ev & _ & _ & _ & _ & T & _).
  simpl in Ev. inversion Ev. subst vrc. exact T.
Defined.

(** X13.  [Process] writes its error line only after the sync interface
    answered exactly -1 to the [SetMinimumPlayoutDelay] call of that same
    cycle; any other answer is not reported. *)
Theorem Process_logs_only_refused_audio_delay :
  forall build w now s r s' t msg,
    call (Process build w now) s = (r, s', t) ->
    In (LogError msg) t ->
    exists voe target_audio_delay_ms,
      voe_sync_interface_ s = Some voe /\
      In (VoE_SetMinimumPlayoutDelay voe (voe_channel_id_ s)
            target_audio_delay_ms) t /\
      SetMinimumPlayoutDelay w voe (voe_channel_id_ s) target_audio_delay_ms
      = -1.
Proof.
  intros build w now s r s' t msg H I.
  unfold Process in H. unfold_M. simpl in H.
  run H; simpl in I;
    repeat (destruct I as [I|I]; [try discriminate I|]);
    try contradiction.
  all: match goal with
       | E : (SetMinimumPlayoutDelay _ _ _ _ =? -1) = true |- _ =>
         apply Z.eqb_eq in E
       end.
  all: do 2 eexists; (split; [reflexivity|]);
    (split; [simpl; tauto | eassumption]).
Qed.

(** The witness: the example cycle with a voice engine that answers -1. *)
Lemma Process_logs_only_refused_audio_delay_witness :
  In (LogError "Error setting voice delay.")
     (snd (call (Process Session.build (Session.flowing (-1)) 1000)
             Session.bound)) /\
  exists voe target_audio_delay_ms,
    voe_sync_interface_ Session.bound = Some voe /\
    In (VoE_SetMinimumPlayoutDelay voe (voe_channel_id_ Session.bound)
          target_audio_delay_ms)
       (snd (call (Process Session.build (Session.flowing (-1)) 1000)
               Session.bound)) /\
    SetMinimumPlayoutDelay (Session.flowing (-1)) voe
      (voe_channel_id_ Session.bound) target_audio_delay_ms = -1.
Proof.
  assert (I : In (LogError "Error setting voice delay.")
                (snd (call (Process Session.build (Session.flowing (-1)) 1000)
                        Session.bound))).
  { vm_compute. tauto. }
  split; [exact I|].
  destruct (call (Process Session.build (Session.flowing (-1)) 1000)
              Session.bound) as [[r s'] t] eqn:E.
  exact (Process_logs_only_refused_audio_delay Session.build
           (Session.flowing (-1)) 1000 Session.bound r s' t _ E I).
Defined.

(** ** Null collaborators *)

Lemma ConfigureSync_keeps_vcm build w s ch voe rtcp receiver r s' t :
  call (ConfigureSync build w ch voe rtcp receiver) s = (r, s', t) ->
  vcm_ s' = vcm_ s.
Proof.
  unfold ConfigureSync. unfold_M. intros H.
  destruct (ch =? -1); simpl in H;
    [| destruct (is_set voe || negb (RTC_DCHECK_IS_ON build)); simpl in H ].
  all: try (pair_eq; reflexivity).
  all: destruct (_ && _) in H; simpl in H; try (pair_eq; reflexivity).
  all: destruct rtcp; simpl in H; pair_eq; reflexivity.
Qed.

(** X11.  [ConfigureSync] binds a channel with a null video receiver
    without complaint, and no assertion of [Process] tests
    [video_receiver_]: in any build, the first cycle in which both queries
    of the voice engine succeed follows the null pointer, before any
    measurement is updated and before anything is asked of the
    [StreamSynchronization] or of a setter. *)
Theorem Process_null_video_receiver :
  forall build w0 w now s ch voe rtcp s1 t1 vcm
         jitter playout voice_rtp_rtcp voice_receiver,
    Reachable build s ->
    ch <> -1 ->
    vcm_ s = Some vcm ->
    call (ConfigureSync build w0 ch (Some voe) rtcp None) s
      = (Completed, s1, t1) ->
    GetDelayEstimate w voe ch = (0, jitter, playout) ->
    GetRtpRtcp w voe ch = (0, Some voice_rtp_rtcp, Some voice_receiver) ->
    call (Process build w now) s1
      = (Faulted NullDereference, set_last_sync_time_ now s1, []).
Proof.
  intros build w0 w now s ch voe rtcp s1 t1 vcm j p arr arc R A V C E1 E2.
  assert (R1 : Reachable build s1) by (eapply reach_ConfigureSync; eassumption).
  pose proof (ConfigureSync_keeps_vcm _ _ _ _ _ _ _ _ _ _ C) as V1.
  rewrite V in V1.
  assert (Same : same_configuration s1 ch (Some voe) rtcp None).
  { destruct (ConfigureSync_outcome _ _ _ _ _ _ _ _ _ C)
      as [(Same & E) | (_ & Same & _)]; [subst s1|]; exact Same. }
  destruct Same as (Ec & Ev & Er & _).
  destruct (Reachable_members build s1 R1) as (M & _).
  rewrite Ec in M. destruct (M A) as (M1 & M2).
  destruct (video_rtp_rtcp_ s1) as [vrr|] eqn:E3; [|discriminate M1].
  destruct (sync_ s1) as [sync|] eqn:E4; [|discriminate M2].
  assert (Ech : (voe_channel_id_ s1 =? -1) = false)
    by (rewrite Ec; now apply Z.eqb_neq).
  rewrite <- Ec in E1, E2.
  start_Process build w now s1 H.
  rewrite Er in H.
  change (UpdateMeasurements w (video_measurement_ s1) (video_rtp_rtcp_ s1) None)
    with (@Fault Z NullDereference, video_measurement_ s1) in H.
  run H. destruct s1; reflexivity.
Qed.

(** The witness: the fresh controller of the example session is bound
    without a video receiver, and both streams flow. *)
Lemma Process_null_video_receiver_witness :
  Reachable Session.build Session.fresh /\
  call (ConfigureSync Session.build Session.starting Session.channel
          (Some Session.voe) (Some Session.video_rtp_rtcp) None)
       Session.fresh
  = (Completed, set_video_receiver_ None Session.bound, []) /\
  call (Process Session.build (Session.flowing 0) 1000)
       (set_video_receiver_ None Session.bound)
  = (Faulted NullDereference,
     set_last_sync_time_ 1000 (set_video_receiver_ None Session.bound), []).
Proof.
  assert (R : Reachable Session.build Session.fresh)
    by apply (reach_new Session.build (Some Session.vcm) 0).
  split; [exact R|]. split; [reflexivity|].
  apply (Process_null_video_receiver Session.build Session.starting
           (Session.flowing 0) 1000 Session.fresh Session.channel Session.voe
           (Some Session.video_rtp_rtcp) _ [] Session.vcm 15 5
           Session.voice_rtp_rtcp Session.voice_receiver R).
  - discriminate.
  - reflexivity.
  - reflexivity.
  - reflexivity.
  - reflexivity.
Defined.

(** X12.  A [ConfigureSync] call that binds a channel with a null sync
    interface: where [RTC_DCHECK] is compiled in, it dies on the check with
    the state untouched, even when the arguments are the stored
    configuration; where it is not, the call is accepted whenever it
    returns, and every [Process] call made on the state it leaves dies at
    once (on the assertion, or on the null pointer when [assert] is compiled
    out too) without asking anything of a collaborator. *)
Theorem ConfigureSync_null_sync_interface :
  forall build w0 s ch rtcp receiver,
    ch <> -1 ->
    (RTC_DCHECK_IS_ON build = true ->
     call (ConfigureSync build w0 ch None rtcp receiver) s
       = (Faulted DcheckFailed, s, [])) /\
    (RTC_DCHECK_IS_ON build = false ->
     forall s1 t1 w now,
       call (ConfigureSync build w0 ch None rtcp receiver) s
         = (Completed, s1, t1) ->
       is_set (vcm_ s) = true ->
       call (Process build w now) s1
         = (Faulted (if NDEBUG build then NullDereference else AssertionFailed),
            set_last_sync_time_ now s1, [])).
Proof.
  intros build w0 s ch rtcp receiver A.
  assert (Ech : (ch =? -1) = false) by now apply Z.eqb_neq.
  split; intros D.
  - unfold ConfigureSync. unfold_M. rewrite Ech, D. reflexivity.
  - intros s1 t1 w now C V.
    pose proof (ConfigureSync_keeps_vcm _ _ _ _ _ _ _ _ _ _ C) as V1.
    destruct (ConfigureSync_Completed _ _ _ _ _ _ _ _ _ C) as (Ec & Ev & _).
    assert (Ech1 : (voe_channel_id_ s1 =? -1) = false) by (rewrite Ec; exact Ech).
    destruct (vcm_ s) as [vcm|]; [|discriminate V].
    start_Process build w now s1 H.
    run H; reflexivity.
Qed.

(** The witness: the fresh controller of the example session, in the debug
    build and in the release build. *)
Lemma ConfigureSync_null_sync_interface_witness :
  Session.channel <> -1 /\
  call (ConfigureSync Session.build Session.starting Session.channel None
          (Some Session.video_rtp_rtcp) (Some Session.video_receiver))
       Session.fresh
  = (Faulted DcheckFailed, Session.fresh, []) /\
  call (ConfigureSync Release.build Session.starting Session.channel None
          (Some Session.video_rtp_rtcp) (Some Session.video_receiver))
       Session.fresh
  = (Completed, set_voe_sync_interface_ None Session.bound, []) /\
  call (Process Release.build (Session.flowing 0) 1000)
       (set_voe_sync_interface_ None Session.bound)
  = (Faulted NullDereference,
     set_last_sync_time_ 1000 (set_voe_sync_interface_ None Session.bound), []).
Proof.
  assert (A : Session.channel <> -1) by discriminate.
  split; [exact A|]. split; [|split; [reflexivity|]].
  - exact (proj1 (ConfigureSync_null_sync_interface Session.build
                    Session.starting Session.fresh Session.channel
                    (Some Session.video_rtp_rtcp)
                    (Some Session.video_receiver) A) eq_refl).
  - exact (proj2 (ConfigureSync_null_sync_interface Release.build
                    Session.starting Session.fresh Session.channel
                    (Some Session.video_rtp_rtcp)
                    (Some Session.video_receiver) A) eq_refl
             _ [] (Session.flowing 0) 1000 eq_refl eq_refl).
Defined.
